(** * Identity binding of the Azure AD / Arcade OAuth agent backend

    A shallow embedding of [src/backend/arcade_tools.py] and
    [src/backend/app.py].  Python values are a small inductive type, the
    cookie-bound session and every [dict] are [gmap]s, exceptions are an error
    monad, and the external collaborators (MSAL, the id_token verifier, the
    Cosmos token cache store, the Arcade gateway, the clock and the random
    source) are oracles whose calls and outcomes are recorded, in order, in a
    transcript. *)

From Stdlib Require Import QArith.QArith_base.
From stdpp Require Import base strings gmap list pretty.

Set Warnings "-register-all".
Local Open Scope Z_scope.

(** ** Python values, truthiness, exceptions *)

Module Py.

(** The values the handlers touch.  [PObj] stands for an opaque library
    object (a Cosmos container proxy, an Arcade client), known only by a
    handle. *)
Inductive PyVal : Type :=
| PNone
| PBool (b : bool)
| PInt (z : Z)
| PFloat (q : Q)
| PStr (s : string)
| PObj (h : positive)
| PDict (d : gmap string PyVal).

(** [bool(v)], as used by [if v:] and [if not v:]. *)
Definition truthy (v : PyVal) : bool :=
  match v with
  | PNone => false
  | PBool b => b
  | PInt z => negb (Z.eqb z 0)
  | PFloat q => negb (Qeq_bool q (0 # 1))
  | PStr s => negb (String.eqb s "")
  | PObj _ => true
  | PDict d => negb (Nat.eqb (size d) 0)
  end.

(** Truthiness of [d.get(k)]: a missing key reads as [None]. *)
Definition opt_truthy (o : option PyVal) : bool :=
  match o with Some v => truthy v | None => false end.

(** Truthiness of an optional string ([None] or [str]). *)
Definition str_truthy (o : option string) : bool :=
  match o with Some s => negb (String.eqb s "") | None => false end.

(** [f"{x}"] for an optional string: [None] prints as the word None. *)
Definition fmt (o : option string) : string :=
  match o with Some s => s | None => "None" end.

(** An exception: its class name and [str(e)]. *)
Record Exc : Type := mkExc { exc_type : string; exc_str : string }.

Inductive Result (A : Type) : Type :=
| Ok (a : A)
| Raise (e : Exc).
Global Arguments Ok {A} a.
Global Arguments Raise {A} e.

Global Instance Result_ret : MRet Result := fun A a => Ok a.
Global Instance Result_bind : MBind Result := fun A B f r =>
  match r with Ok a => f a | Raise e => Raise e end.

(** [v.get(k, dflt)]: only a dict has [get]; anything else raises
    [AttributeError]. *)
Definition dict_get (v : PyVal) (k : string) (dflt : PyVal) : Result PyVal :=
  match v with
  | PDict d => Ok (default dflt (d !! k))
  | _ => Raise (mkExc "AttributeError" "object has no attribute 'get'")
  end.

(** [str.isspace] on the ASCII range (code points 9-13, 28-32).  Unicode
    white space outside ASCII is not told apart from other bytes. *)
Definition is_space (c : Ascii.ascii) : bool :=
  let n := Z.of_nat (Ascii.nat_of_ascii c) in
  ((9 <=? n) && (n <=? 13)) || ((28 <=? n) && (n <=? 32)).

(** [s.split()]: the maximal runs of non-space characters.  [cur] is the
    run being read, reversed. *)
Fixpoint split_go (cur : string) (s : string) : list string :=
  let flush rest :=
    match cur with EmptyString => rest | _ => String.rev cur :: rest end in
  match s with
  | EmptyString => flush []
  | String c s' =>
      if is_space c then flush (split_go EmptyString s')
      else split_go (String c cur) s'
  end.

Definition split (s : string) : list string := split_go EmptyString s.

Fixpoint lstrip (s : string) : string :=
  match s with
  | String c s' => if is_space c then lstrip s' else s
  | EmptyString => EmptyString
  end.

(** [s.strip()] *)
Definition strip (s : string) : string :=
  String.rev (lstrip (String.rev (lstrip s))).

(** [needle in hay] for strings. *)
Fixpoint contains (needle hay : string) : bool :=
  String.prefix needle hay ||
  match hay with
  | EmptyString => false
  | String _ hay' => contains needle hay'
  end.

End Py.
Export Py.

(** ** [src/backend/arcade_tools.py] *)

Module ArcadeTools.

(** One entry of the connection table given to [MultiServerMCPClient]. *)
Record ServerConfig : Type := mkServerConfig {
  transport : string;
  url : string;
  headers : gmap string PyVal
}.

Section Config.
(** Module-level configuration read from the environment;
    [ARCADE_API_KEY] is [None] when the variable is unset. *)
Variable ARCADE_MCP_URL : string.
Variable ARCADE_API_KEY : option string.

Definition no_user : Exc :=
  mkExc "ValueError" "No authenticated user found in runtime context".

Definition get_user_id_from_runtime (runtime : gmap string PyVal) : Result PyVal :=
  let configurable := default (PDict ∅) (runtime !! "configurable") in
  user ← dict_get configurable "langgraph_auth_user" (PDict ∅);
  user_id ← dict_get user "identity" PNone;
  if negb (truthy user_id) then Raise no_user else Ok user_id.

Definition get_arcade_mcp_client (user_id : PyVal) : gmap string ServerConfig :=
  {[ "arcade" :=
       {| transport := "streamable_http";
          url := ARCADE_MCP_URL;
          headers :=
            <["Authorization" := PStr ("Bearer " +:+ fmt ARCADE_API_KEY)]>
              (<["Arcade-User-Id" := user_id]> ∅) |} ]}.

(** [client.get_tools()] is the MCP adapter's network call, taken as an
    oracle on the client configuration. *)
Definition get_arcade_tools
    (get_tools : gmap string ServerConfig → Result (list PyVal))
    (runtime : gmap string PyVal) : Result (list PyVal) :=
  user_id ← get_user_id_from_runtime runtime;
  let client := get_arcade_mcp_client user_id in
  get_tools client.

(** The user-scoping header of a client configuration. *)
Definition scoping_header (client : gmap string ServerConfig) : option PyVal :=
  cfg ← client !! "arcade"; headers cfg !! "Arcade-User-Id".

End Config.

End ArcadeTools.

(** ** [src/backend/app.py] *)

Module App.

(** *** Responses *)

Inductive Body : Type :=
| NoBody
| Text (content : string)
| Html (content : string)
| Json (content : list (string * PyVal)).

(** [redirect_to] is the [url] handed to a [RedirectResponse]. *)
Record Response : Type := mkResponse {
  status_code : Z;
  body : Body;
  redirect_to : option string
}.

(** [Response(content, status_code=...)] *)
Definition PlainResponse (content : string) (status : Z) : Response :=
  mkResponse status (Text content) None.

(** [Response(status_code=...)] *)
Definition EmptyResponse (status : Z) : Response :=
  mkResponse status NoBody None.

(** [JSONResponse(content, status_code=...)], 200 when no status is given. *)
Definition JSONResponse (content : list (string * PyVal)) (status : Z) : Response :=
  mkResponse status (Json content) None.

(** [HTMLResponse(content=..., status_code=...)] *)
Definition HTMLResponse (content : string) (status : Z) : Response :=
  mkResponse status (Html content) None.

(** [RedirectResponse(url=...)]: the handler passes no status code, and
    Starlette's [RedirectResponse.__init__] declares [status_code: int = 307]
    (Temporary Redirect) with an empty body. *)
Definition RedirectResponse (url : string) : Response :=
  mkResponse 307 NoBody (Some url).

(** The page of [arcade_verify]'s Option 2.  The literal's markup and style
    sheet are left out; the text of the card is kept. *)
Definition success_page : string :=
  "<html><head><title>Authorization Successful</title></head>" +:+
  "<body><h1>✓ Authorization Successful</h1>" +:+
  "<p>You have successfully authorized the application.</p>" +:+
  "<p>You can close this window and return to the application.</p>" +:+
  "<button>Close Window</button></body></html>".

(** *** The external collaborators *)

(** What [client.auth.confirm_user] returns, as far as the handler reads it. *)
Record ConfirmUserResponse : Type := mkConfirmUserResponse {
  auth_id : string;
  next_uri : option string
}.

(** What [client.auth.wait_for_completion] returns, as far as the handler
    reads it. *)
Record AuthorizationResponse : Type := mkAuthorizationResponse {
  status : option string
}.

(** One call across the boundary of the process, with its arguments and
    its outcome.  [save_token_cache_to_cosmos] also receives the MSAL
    module's global [token_cache]; that object lives on the far side of the
    boundary and is not an argument here. *)
Inductive Event : Type :=
| EvTokenUrlsafe (nbytes : Z) (out : string)
| EvGetAuthorizationRequestUrl
    (scopes : list string) (redirect_uri state prompt : string) (out : Result string)
| EvAcquireTokenByAuthorizationCode
    (code : string) (scopes : list string) (redirect_uri : string)
    (out : Result (gmap string string))
| EvVerifyIdToken (id_token : string) (out : Result (gmap string string))
| EvGetCosmosContainer (out : Result PyVal)
| EvSaveTokenCacheToCosmos (container : PyVal) (user_key : string) (out : Result unit)
| EvExtractInfoFromCache (user_id container : PyVal) (out : Result PyVal)
| EvGetRefreshedAzureTokens
    (token_info : PyVal) (scopes : list string) (out : Result (string * string))
| EvTimeTime (out : Q)
| EvAsyncArcade (out : Result PyVal)
| EvConfirmUser (flow_id : string) (user_id : PyVal) (out : Result ConfirmUserResponse)
| EvWaitForCompletion (auth_id : string) (out : Result AuthorizationResponse)
| EvPrint (line : string).

(** The collaborators imported from [backend.auth], [backend.secrets],
    [msal], [arcadepy], [secrets] and [time], and the two configuration
    constants.  Each oracle sees the transcript so far, so its answer may
    depend on everything that happened before the call.  The id_token's
    claims and the token response are dicts of strings. *)
Record Env : Type := mkEnv {
  AAD_REDIRECT_URI : string;
  AAD_APPLICATION_URI : string;
  token_urlsafe : list Event → Z → string;
  get_authorization_request_url :
    list Event → list string → string → string → string → Result string;
  acquire_token_by_authorization_code :
    list Event → string → list string → string → Result (gmap string string);
  verify_id_token : list Event → string → Result (gmap string string);
  get_cosmos_container : list Event → Result PyVal;
  save_token_cache_to_cosmos : list Event → PyVal → string → Result unit;
  extract_info_from_cache : list Event → PyVal → PyVal → Result PyVal;
  get_refreshed_azure_tokens :
    list Event → PyVal → list string → Result (string * string);
  time_time : list Event → Q;
  AsyncArcade : list Event → Result PyVal;
  confirm_user : list Event → string → PyVal → Result ConfirmUserResponse;
  wait_for_completion : list Event → string → Result AuthorizationResponse
}.

(** *** The handler monad: session state, transcript, exceptions *)

Record World : Type := mkWorld {
  session : gmap string PyVal;
  log : list Event
}.

Definition M (A : Type) : Type := World → Result A * World.

Global Instance M_ret : MRet M := fun A a w => (Ok a, w).
Global Instance M_bind : MBind M := fun A B f m w =>
  match m w with
  | (Ok a, w') => f a w'
  | (Raise e, w') => (Raise e, w')
  end.

(** [try: m except Exception as e: handler e]; what [m] did before it
    raised stays done. *)
Definition try_except {A} (m : M A) (handler : Exc → M A) : M A := fun w =>
  match m w with
  | (Ok a, w') => (Ok a, w')
  | (Raise e, w') => handler e w'
  end.

(** A call that may raise: ask the oracle, record the call. *)
Definition call {A} (oracle : list Event → Result A) (ev : Result A → Event) : M A :=
  fun w =>
    let out := oracle (log w) in
    (out, mkWorld (session w) (log w ++ [ev out])).

(** A call that cannot raise. *)
Definition call_pure {A} (oracle : list Event → A) (ev : A → Event) : M A :=
  fun w =>
    let out := oracle (log w) in
    (Ok out, mkWorld (session w) (log w ++ [ev out])).

Definition print (line : string) : M unit := fun w =>
  (Ok tt, mkWorld (session w) (log w ++ [EvPrint line])).

(** [request.session.get(k)] *)
Definition session_get (k : string) : M (option PyVal) := fun w =>
  (Ok (session w !! k), w).

(** [request.session[k] = v] *)
Definition session_set (k : string) (v : PyVal) : M unit := fun w =>
  (Ok tt, mkWorld (<[k := v]> (session w)) (log w)).

(** [request.session.clear()] *)
Definition session_clear : M unit := fun w =>
  (Ok tt, mkWorld ∅ (log w)).

(** [request.query_params], by its [get]. *)
Record Request : Type := mkRequest {
  query_params : gmap string string
}.

(** [k in d] *)
Definition has_key (d : gmap string string) (k : string) : bool :=
  match d !! k with Some _ => true | None => false end.

(** *** The handlers *)

Section Handlers.
Variable env : Env.

Definition NECESSARY_AAD_SCOPES : list string :=
  [ "email"; AAD_APPLICATION_URI env +:+ "/access" ].

(** [GET /] *)
Definition root (request : Request) : M Response :=
  mret (JSONResponse [("message", PStr "Application is running.")] 200).

(** [GET /auth/login] *)
Definition login (request : Request) : M Response :=
  state ← call_pure (λ h, token_urlsafe env h 16) (EvTokenUrlsafe 16);
  _ ← session_set "state" (PStr state);
  auth_url ← call
    (λ h, get_authorization_request_url env h
            NECESSARY_AAD_SCOPES (AAD_REDIRECT_URI env) state "select_account")
    (EvGetAuthorizationRequestUrl
       NECESSARY_AAD_SCOPES (AAD_REDIRECT_URI env) state "select_account");
  mret (JSONResponse [("auth_url", PStr auth_url)] 200).

(** The scope list of [auth_callback]:
    [[s.strip() for s in scopes_param.split() if s.strip()]], empty when
    the parameter is missing or empty. *)
Definition parse_scopes (scopes_param : option string) : list string :=
  if str_truthy scopes_param then
    strip <$> List.filter (λ s, negb (String.eqb (strip s) ""))
                          (split (default "" scopes_param))
  else [].

(** The body of [auth_callback]'s inner [try]: verify the id_token and
    read the two identity claims.  [inl] is the handler's early return. *)
Definition verified_claims (id_token : string)
    : M (Response + gmap string string * option string * option string) :=
  try_except
    (id_claims ← call (λ h, verify_id_token env h id_token) (EvVerifyIdToken id_token);
     let oid := id_claims !! "oid" in
     let tid := id_claims !! "tid" in
     mret (inr (id_claims, oid, tid)))
    (λ e, mret (inl (PlainResponse
                       "❌ Auth Callback Error:Failed to verify id_token" 400))).

(** [GET /auth/callback] *)
Definition auth_callback (request : Request) : M Response :=
  let code := query_params request !! "code" in
  let scopes_param := query_params request !! "scopes" in
  let scopes := parse_scopes scopes_param in
  if negb (str_truthy code) then
    mret (PlainResponse "No authorization code provided" 400)
  else
    try_except
      (result ← call
         (λ h, acquire_token_by_authorization_code env h
                 (default "" code) scopes (AAD_REDIRECT_URI env))
         (EvAcquireTokenByAuthorizationCode
            (default "" code) scopes (AAD_REDIRECT_URI env));
       if has_key result "access_token" && has_key result "id_token" then
         let id_token := default "" (result !! "id_token") in
         verified ← verified_claims id_token;
         match verified with
         | inl early => mret early
         | inr (id_claims, oid, tid) =>
             if negb (str_truthy oid) || negb (str_truthy tid) then
               mret (PlainResponse
                 "❌ Auth Callback Error: Missing 'oid' or 'tid' claim in id_token" 400)
             else
               cosmos_container ← call (get_cosmos_container env) EvGetCosmosContainer;
               let user_key := fmt oid +:+ "." +:+ fmt tid in
               _ ← call
                 (λ h, save_token_cache_to_cosmos env h cosmos_container user_key)
                 (EvSaveTokenCacheToCosmos cosmos_container user_key);
               _ ← session_set "user_id" (PStr user_key);
               now ← call_pure (time_time env) EvTimeTime;
               _ ← session_set "auth_time" (PFloat now);
               _ ← session_set "user_email" (PStr (default "" (id_claims !! "email")));
               _ ← session_set "user_name" (PStr (default "" (id_claims !! "name")));
               mret (EmptyResponse 200)
         end
       else
         let error_msg := default "Unknown error" (result !! "error_description") in
         mret (PlainResponse ("❌ Auth Callback Error: " +:+ error_msg) 400))
      (λ e, mret (PlainResponse
         ("❌ Auth Callback Error: Token exchange failed raising " +:+ exc_str e) 400)).

(** [GET /auth/status] *)
Definition auth_status (request : Request) : M Response :=
  access_token ← session_get "access_token";
  if opt_truthy access_token then
    mret (JSONResponse [("authenticated", PBool true)] 200)
  else
    mret (JSONResponse [("authenticated", PBool false)] 200).

(** [GET /auth/logout] *)
Definition logout (request : Request) : M Response :=
  _ ← session_clear;
  mret (EmptyResponse 200).

(** [GET /auth/tokens] *)
Definition get_tokens (request : Request) : M Response :=
  user_id ← session_get "user_id";
  if negb (opt_truthy user_id) then
    mret (JSONResponse
      [("error", PStr "❌ Token Issuance Error: No valid session")] 401)
  else
    let user_id := default PNone user_id in
    try_except
      (cosmos_container ← call (get_cosmos_container env) EvGetCosmosContainer;
       token_info ← call
         (λ h, extract_info_from_cache env h user_id cosmos_container)
         (EvExtractInfoFromCache user_id cosmos_container);
       if negb (truthy token_info) then
         mret (JSONResponse
           [("error", PStr "❌ Token Issuance Error: No token info found in cache")] 401)
       else
         tokens ← call
           (λ h, get_refreshed_azure_tokens env h token_info NECESSARY_AAD_SCOPES)
           (EvGetRefreshedAzureTokens token_info NECESSARY_AAD_SCOPES);
         mret (JSONResponse
           [("access_token", PStr tokens.1); ("id_token", PStr tokens.2)] 200))
      (λ e, mret (JSONResponse
         [("error", PStr ("❌ Token Issuance Error: " +:+ exc_str e))] 401)).

(** [GET /arcade/verify] *)
Definition arcade_verify (request : Request) (flow_id : string) : M Response :=
  if String.eqb flow_id "" then
    mret (PlainResponse
      "❌ Arcade Verify Error: Missing required parameter: flow_id" 400)
  else
    user_id ← session_get "user_id";
    if negb (opt_truthy user_id) then
      mret (PlainResponse
        "❌ Arcade Verify Error: User not authenticated. Please log in first." 401)
    else
      let user_id := default PNone user_id in
      try_except
        (client ← call (AsyncArcade env) EvAsyncArcade;
         result ← call
           (λ h, confirm_user env h flow_id user_id) (EvConfirmUser flow_id user_id);
         auth_response ← call
           (λ h, wait_for_completion env h (auth_id result))
           (EvWaitForCompletion (auth_id result));
         if bool_decide (status auth_response = Some "completed") then
           if str_truthy (next_uri result) then
             mret (RedirectResponse (default "" (next_uri result)))
           else
             mret (HTMLResponse success_page 200)
         else
           mret (PlainResponse
             ("❌ Arcade Verify Error: Authorization status: "
                +:+ fmt (status auth_response)) 400))
        (λ e,
           _ ← print ("❌ Arcade Verify Error: " +:+ exc_str e);
           mret (PlainResponse
             ("❌ Arcade Verify Error: Failed to verify user. " +:+ exc_str e) 400)).

(** The routes of the application.  [arcade_verify] declares
    [flow_id: str], a required query parameter: FastAPI answers 422
    without entering the handler when it is missing. *)
Inductive Endpoint : Type :=
| GetRoot
| GetAuthLogin
| GetAuthCallback
| GetAuthStatus
| GetAuthLogout
| GetAuthTokens
| GetArcadeVerify.

Definition handle (ep : Endpoint) (request : Request) : M Response :=
  match ep with
  | GetRoot => root request
  | GetAuthLogin => login request
  | GetAuthCallback => auth_callback request
  | GetAuthStatus => auth_status request
  | GetAuthLogout => logout request
  | GetAuthTokens => get_tokens request
  | GetArcadeVerify =>
      match query_params request !! "flow_id" with
      | Some flow_id => arcade_verify request flow_id
      | None => mret (JSONResponse [("detail", PStr "Field required")] 422)
      end
  end.

End Handlers.

(** The events a run added to the transcript. *)
Definition new_events (w w' : World) : list Event :=
  drop (length (log w)) (log w').

(** A write to the Token Cache Store. *)
Definition is_cache_write (ev : Event) : bool :=
  match ev with EvSaveTokenCacheToCosmos _ _ _ => true | _ => false end.

(** A call to the tool gateway. *)
Definition is_gateway_call (ev : Event) : bool :=
  match ev with
  | EvConfirmUser _ _ _ | EvWaitForCompletion _ _ => true
  | _ => false
  end.

End App.

(** ** [src/backend/agent.py] *)

Module Agent.
Import ArcadeTools.

Section Factory.
Variable ARCADE_MCP_URL : string.
Variable ARCADE_API_KEY : option string.
(** What [type(runtime)] prints as. *)
Variable runtime_type : gmap string PyVal → string.
(** [client.get_tools()] and LangChain's [create_agent(model, tools,
    system_prompt)], both outside the repository. *)
Variable get_tools : gmap string ServerConfig → Result (list PyVal).
Variable create_agent : string → list PyVal → string → Result PyVal.

(** The graph factory: the lines it prints, and the agent or the exception
    it ends with. *)
Definition create_arcade_agent (runtime : gmap string PyVal)
    : list string * Result PyVal :=
  let started :=
    "🚀 create_arcade_agent called with runtime: " +:+ runtime_type runtime in
  match get_arcade_tools ARCADE_MCP_URL ARCADE_API_KEY get_tools runtime with
  | Raise e => ([started], Raise e)
  | Ok tools =>
      match create_agent "openai:gpt-4o" tools "You're a helpful assistant." with
      | Raise e => ([started], Raise e)
      | Ok agent =>
          ([started;
            "✅ Agent created with " +:+ pretty (length tools) +:+ " tools"],
           Ok agent)
      end
  end.

End Factory.

End Agent.

(** ** Vocabulary of the statements *)

Module Props.
Import ArcadeTools App.

(** The runtime context lacks the authenticated-user descriptor: the key is
    missing at the first, the second or the third level. *)
Definition identity_absent (runtime : gmap string PyVal) : Prop :=
  runtime !! "configurable" = None ∨
  ∃ configurable, runtime !! "configurable" = Some (PDict configurable) ∧
    (configurable !! "langgraph_auth_user" = None ∨
     ∃ user, configurable !! "langgraph_auth_user" = Some (PDict user) ∧
       user !! "identity" = None).

(** The runtime context carries [user_key] as the identity of its
    authenticated user. *)
Definition identity_present (runtime : gmap string PyVal) (user_key : PyVal) : Prop :=
  ∃ configurable user,
    runtime !! "configurable" = Some (PDict configurable) ∧
    configurable !! "langgraph_auth_user" = Some (PDict user) ∧
    user !! "identity" = Some user_key ∧
    truthy user_key = true.

(** The Token Cache Store writes among some events. *)
Definition cache_writes (evs : list Event) : list Event :=
  List.filter is_cache_write evs.

(** The gateway calls among some events. *)
Definition gateway_calls (evs : list Event) : list Event :=
  List.filter is_gateway_call evs.

(** A callback run that fails before persistence: no [code], or an
    id_token that did not verify, or verified claims without a usable
    [oid] or [tid]. *)
Definition fails_before_persistence (request : Request) (evs : list Event) : Prop :=
  str_truthy (query_params request !! "code") = false
  ∨ (∃ id_token e, EvVerifyIdToken id_token (Raise e) ∈ evs)
  ∨ (∃ id_token id_claims,
       EvVerifyIdToken id_token (Ok id_claims) ∈ evs ∧
       (str_truthy (id_claims !! "oid") = false ∨
        str_truthy (id_claims !! "tid") = false)).

(** Every Token Cache Store write among [evs] comes after a verification
    of an id_token that succeeded. *)
Definition verified_before_write (evs : list Event) : Prop :=
  ∀ i container user_key out,
    evs !! i = Some (EvSaveTokenCacheToCosmos container user_key out) →
    ∃ j id_token id_claims,
      (j < i)%nat ∧ evs !! j = Some (EvVerifyIdToken id_token (Ok id_claims)).

(** Two dicts that agree on every key but [state]. *)
Definition same_but_state {V} (m1 m2 : gmap string V) : Prop :=
  delete "state" m1 = delete "state" m2.

(** The keys of the Session Record. *)
Definition session_keys : list string :=
  [ "state"; "user_id"; "auth_time"; "user_email"; "user_name" ].

(** A callback run that ended in a successful identity exchange, with the
    claims its id_token verified to. *)
Definition successful_exchange (env : Env) (request : Request) (w w' : World)
    (id_claims : gmap string string) : Prop :=
  ∃ resp id_token,
    auth_callback env request w = (Ok resp, w') ∧
    status_code resp = 200 ∧
    EvVerifyIdToken id_token (Ok id_claims) ∈ new_events w w'.

(** The run from [w] to [w'] bound [user_key] to the session and made its
    one Token Cache Store write under it. *)
Definition stored_user_key (w w' : World) (user_key : string) : Prop :=
  session w' !! "user_id" = Some (PStr user_key) ∧
  ∃ container,
    cache_writes (new_events w w')
    = [EvSaveTokenCacheToCosmos container user_key (Ok tt)].

(** The gateway is reachable and answers: the client is built, then
    [confirm_user] returns [result], then [wait_for_completion] returns
    [auth_response], each asked with the transcript the handler has built
    up by then. *)
Definition gateway_answers (env : Env) (w : World) (flow_id : string)
    (user_key client : PyVal) (result : ConfirmUserResponse)
    (auth_response : AuthorizationResponse) : Prop :=
  AsyncArcade env (log w) = Ok client ∧
  confirm_user env (log w ++ [EvAsyncArcade (Ok client)]) flow_id user_key
    = Ok result ∧
  wait_for_completion env
    (log w ++ [EvAsyncArcade (Ok client); EvConfirmUser flow_id user_key (Ok result)])
    (auth_id result) = Ok auth_response.

(** Where a value written to the session under [k] comes from: the random
    nonce, the clock, or the claims of a verified id_token. *)
Definition written_by (k : string) (v : PyVal) (evs : list Event) : Prop :=
  (k = "state" ∧ ∃ nbytes nonce, EvTokenUrlsafe nbytes nonce ∈ evs ∧ v = PStr nonce)
  ∨ (k = "auth_time" ∧ ∃ now, EvTimeTime now ∈ evs ∧ v = PFloat now)
  ∨ (∃ id_token id_claims,
       EvVerifyIdToken id_token (Ok id_claims) ∈ evs ∧
       ((k = "user_id" ∧
         v = PStr (fmt (id_claims !! "oid") +:+ "." +:+ fmt (id_claims !! "tid")))
        ∨ (k = "user_email" ∧ v = PStr (default "" (id_claims !! "email")))
        ∨ (k = "user_name" ∧ v = PStr (default "" (id_claims !! "name"))))).

(** A JSON body with a token field. *)
Definition names_token (content : list (string * PyVal)) : Prop :=
  ∃ k v, (k, v) ∈ content ∧
    (k = "access_token" ∨ k = "id_token" ∨ k = "refresh_token").

(** The body is the token pair that the refresh helper returned for the
    Token Cache Store entry of the session's user. *)
Definition served_from_cache (w : World) (content : list (string * PyVal))
    (evs : list Event) : Prop :=
  ∃ user_id container token_info scopes tokens,
    session w !! "user_id" = Some user_id ∧
    EvExtractInfoFromCache user_id container (Ok token_info) ∈ evs ∧
    EvGetRefreshedAzureTokens token_info scopes (Ok tokens) ∈ evs ∧
    content = [("access_token", PStr tokens.1); ("id_token", PStr tokens.2)].

(** The worlds the application can be in: a fresh browser, any request
    served, the session cookie expired or dropped. *)
Inductive reachable (env : Env) : World → Prop :=
| reach_fresh : reachable env (mkWorld ∅ [])
| reach_handle w ep request r w' :
    reachable env w → handle env ep request w = (r, w') → reachable env w'
| reach_expire w :
    reachable env w → reachable env (mkWorld ∅ (log w)).

(** The exception a call ended with, if it raised. *)
Definition outcome_exc (ev : Event) : option Exc :=
  match ev with
  | EvGetAuthorizationRequestUrl _ _ _ _ (Raise e)
  | EvAcquireTokenByAuthorizationCode _ _ _ (Raise e)
  | EvVerifyIdToken _ (Raise e)
  | EvGetCosmosContainer (Raise e)
  | EvSaveTokenCacheToCosmos _ _ (Raise e)
  | EvExtractInfoFromCache _ _ (Raise e)
  | EvGetRefreshedAzureTokens _ _ (Raise e)
  | EvAsyncArcade (Raise e)
  | EvConfirmUser _ _ (Raise e)
  | EvWaitForCompletion _ (Raise e) => Some e
  | _ => None
  end.

(** The routes a call can be made from. *)
Definition event_routes (ev : Event) : list Endpoint :=
  match ev with
  | EvTokenUrlsafe _ _ | EvGetAuthorizationRequestUrl _ _ _ _ _ => [GetAuthLogin]
  | EvAcquireTokenByAuthorizationCode _ _ _ _ | EvVerifyIdToken _ _
  | EvSaveTokenCacheToCosmos _ _ _ | EvTimeTime _ => [GetAuthCallback]
  | EvGetCosmosContainer _ => [GetAuthCallback; GetAuthTokens]
  | EvExtractInfoFromCache _ _ _ | EvGetRefreshedAzureTokens _ _ _ => [GetAuthTokens]
  | EvAsyncArcade _ | EvConfirmUser _ _ _ | EvWaitForCompletion _ _
  | EvPrint _ => [GetArcadeVerify]
  end.

(** The routes that leave the session as it is. *)
Definition reads_only (ep : Endpoint) : bool :=
  match ep with
  | GetRoot | GetAuthStatus | GetAuthTokens | GetArcadeVerify => true
  | _ => false
  end.

(** The routes that call nothing outside the process. *)
Definition calls_nothing (ep : Endpoint) : bool :=
  match ep with
  | GetRoot | GetAuthStatus | GetAuthLogout => true
  | _ => false
  end.


(** A value that is not a dict and not an opaque object. *)
Definition scalar (v : PyVal) : bool :=
  match v with
  | PNone | PBool _ | PInt _ | PFloat _ | PStr _ => true
  | PObj _ | PDict _ => false
  end.

(** An authenticated session is backed by the transcript: its [user_id] is
    the key derived from the claims of an id_token that verified, and the
    token cache was saved under that key. *)
Definition session_backed (w : World) : Prop :=
  ∀ v, session w !! "user_id" = Some v →
    ∃ id_token id_claims container,
      EvVerifyIdToken id_token (Ok id_claims) ∈ log w ∧
      str_truthy (id_claims !! "oid") = true ∧
      str_truthy (id_claims !! "tid") = true ∧
      v = PStr (fmt (id_claims !! "oid") +:+ "." +:+ fmt (id_claims !! "tid")) ∧
      EvSaveTokenCacheToCosmos container
        (fmt (id_claims !! "oid") +:+ "." +:+ fmt (id_claims !! "tid")) (Ok tt)
        ∈ log w.

End Props.

(** ** Concrete runs *)

Module Scenario.
Import ArcadeTools App.

Definition runtime_ok : gmap string PyVal :=
  {[ "configurable" :=
       PDict {[ "langgraph_auth_user" := PDict {[ "identity" := PStr "o1.t1" ]} ]} ]}.

Definition tools_of (client : gmap string ServerConfig) : Result (list PyVal) :=
  Ok [default PNone (scoping_header client)].

(** Collaborators that answer the same way whatever came before. *)
Definition scenario
    (acquired : Result (gmap string string))
    (verified : Result (gmap string string))
    (saved : Result unit)
    (confirmed : Result ConfirmUserResponse)
    (completion : Result AuthorizationResponse) : Env :=
  {| AAD_REDIRECT_URI := "http://localhost:8000/auth/callback";
     AAD_APPLICATION_URI := "api://agent";
     token_urlsafe := λ _ _, "nonce-1";
     get_authorization_request_url := λ _ _ _ state _,
       Ok ("https://login.example/authorize?state=" +:+ state);
     acquire_token_by_authorization_code := λ _ _ _ _, acquired;
     verify_id_token := λ _ _, verified;
     get_cosmos_container := λ _, Ok (PObj 1);
     save_token_cache_to_cosmos := λ _ _ _, saved;
     extract_info_from_cache := λ _ _ _, Ok (PDict {[ "blob" := PStr "cache" ]});
     get_refreshed_azure_tokens := λ _ _ _, Ok ("at-2", "idt-2");
     time_time := λ _, 1700000000 # 1;
     AsyncArcade := λ _, Ok (PObj 2);
     confirm_user := λ _ _ _, confirmed;
     wait_for_completion := λ _ _, completion |}.

Definition tokens : gmap string string :=
  {[ "access_token" := "at-1"; "id_token" := "idt-1" ]}.

Definition claims : gmap string string :=
  {[ "oid" := "o1"; "tid" := "t1"; "email" := "ann@example.org"; "name" := "Ann" ]}.

Definition boom : Exc := mkExc "ConnectionError" "proxy 10.0.0.7 refused".

Definition confirmed_next : ConfirmUserResponse :=
  mkConfirmUserResponse "auth-1" (Some "https://gateway.example/next").

Definition completed : AuthorizationResponse :=
  mkAuthorizationResponse (Some "completed").

Definition expired : AuthorizationResponse :=
  mkAuthorizationResponse (Some "expired").

(** Everything succeeds. *)
Definition env_ok : Env :=
  scenario (Ok tokens) (Ok claims) (Ok tt) (Ok confirmed_next) (Ok completed).

(** The id_token does not verify. *)
Definition env_bad_token : Env :=
  scenario (Ok tokens) (Raise boom) (Ok tt) (Ok confirmed_next) (Ok completed).

(** The Token Cache Store write fails. *)
Definition env_save_fails : Env :=
  scenario (Ok tokens) (Ok claims) (Raise boom) (Ok confirmed_next) (Ok completed).

(** The gateway reports a consent flow that did not complete. *)
Definition env_expired : Env :=
  scenario (Ok tokens) (Ok claims) (Ok tt) (Ok confirmed_next) (Ok expired).

(** The provider library raises during the token exchange. *)
Definition env_exchange_fails : Env :=
  scenario (Raise boom) (Ok claims) (Ok tt) (Ok confirmed_next) (Ok completed).

Definition request_code : Request := mkRequest {[ "code" := "c0de" ]}.
Definition request_code_state : Request :=
  mkRequest {[ "code" := "c0de"; "state" := "forged" ]}.
Definition request_empty : Request := mkRequest ∅.

(** A fresh session, and one that went through [/auth/login]. *)
Definition world_fresh : World := mkWorld ∅ [].
Definition world_pending : World := mkWorld {[ "state" := PStr "nonce-1" ]} [].
Definition world_logged_in : World := mkWorld {[ "user_id" := PStr "o1.t1" ]} [].

(** [env_ok] with some collaborators answering otherwise. *)
Definition with_cache (env : Env)
    (found : Result PyVal) (refreshed : Result (string * string)) : Env :=
  {| AAD_REDIRECT_URI := AAD_REDIRECT_URI env;
     AAD_APPLICATION_URI := AAD_APPLICATION_URI env;
     token_urlsafe := token_urlsafe env;
     get_authorization_request_url := get_authorization_request_url env;
     acquire_token_by_authorization_code := acquire_token_by_authorization_code env;
     verify_id_token := verify_id_token env;
     get_cosmos_container := get_cosmos_container env;
     save_token_cache_to_cosmos := save_token_cache_to_cosmos env;
     extract_info_from_cache := λ _ _ _, found;
     get_refreshed_azure_tokens := λ _ _ _, refreshed;
     time_time := time_time env;
     AsyncArcade := AsyncArcade env;
     confirm_user := confirm_user env;
     wait_for_completion := wait_for_completion env |}.

Definition with_login_url (env : Env) (built : Result string) : Env :=
  {| AAD_REDIRECT_URI := AAD_REDIRECT_URI env;
     AAD_APPLICATION_URI := AAD_APPLICATION_URI env;
     token_urlsafe := token_urlsafe env;
     get_authorization_request_url := λ _ _ _ _ _, built;
     acquire_token_by_authorization_code := acquire_token_by_authorization_code env;
     verify_id_token := verify_id_token env;
     get_cosmos_container := get_cosmos_container env;
     save_token_cache_to_cosmos := save_token_cache_to_cosmos env;
     extract_info_from_cache := extract_info_from_cache env;
     get_refreshed_azure_tokens := get_refreshed_azure_tokens env;
     time_time := time_time env;
     AsyncArcade := AsyncArcade env;
     confirm_user := confirm_user env;
     wait_for_completion := wait_for_completion env |}.

(** No entry in the Token Cache Store. *)
Definition env_cache_miss : Env := with_cache env_ok (Ok PNone) (Ok ("at-2", "idt-2")).

(** The provider rejects the refresh. *)
Definition env_refresh_fails : Env :=
  with_cache env_ok (Ok (PDict {[ "blob" := PStr "cache" ]})) (Raise boom).

(** MSAL cannot build the authorization URL. *)
Definition env_login_fails : Env := with_login_url env_ok (Raise boom).

(** The provider answers the exchange with an error. *)
Definition rejection : gmap string string :=
  {[ "error" := "invalid_grant"; "error_description" := "AADSTS70008: code expired" ]}.
Definition env_provider_rejects : Env :=
  scenario (Ok rejection) (Ok claims) (Ok tt) (Ok confirmed_next) (Ok completed).

(** The gateway refuses the confirmation. *)
Definition env_gateway_refuses : Env :=
  scenario (Ok tokens) (Ok claims) (Ok tt) (Raise boom) (Ok completed).


Definition runtime_empty_identity : gmap string PyVal :=
  {[ "configurable" :=
       PDict {[ "langgraph_auth_user" := PDict {[ "identity" := PStr "" ]} ]} ]}.

Definition runtime_none_configurable : gmap string PyVal :=
  {[ "configurable" := PNone ]}.

Definition agent_of (model : string) (tools : list PyVal) (prompt : string)
    : Result PyVal :=
  Ok (PDict {[ "model" := PStr model ]}).

Definition type_of (runtime : gmap string PyVal) : string := "<class 'dict'>".

End Scenario.

(** ** Tool-gateway binding *)

Section ToolGatewayBinding.
Import ArcadeTools Props.
Variable ARCADE_MCP_URL : string.
Variable ARCADE_API_KEY : option string.

Lemma scoping_header_client (user_id : PyVal) :
  scoping_header (get_arcade_mcp_client ARCADE_MCP_URL ARCADE_API_KEY user_id)
  = Some user_id.
Proof.
  unfold scoping_header, get_arcade_mcp_client.
  rewrite lookup_singleton_eq. simpl.
  rewrite lookup_insert_ne by done. apply lookup_insert_eq.
Qed.

Lemma get_user_id_absent (runtime : gmap string PyVal) :
  identity_absent runtime → get_user_id_from_runtime runtime = Raise no_user.
Proof.
  unfold get_user_id_from_runtime.
  intros [Hc | (c & Hc & [Hu | (u & Hu & Hi)])]; rewrite Hc; simpl.
  - by rewrite lookup_empty.
  - by rewrite Hu; simpl; rewrite lookup_empty.
  - by rewrite Hu; simpl; rewrite Hi.
Qed.

Lemma get_user_id_present (runtime : gmap string PyVal) (user_key : PyVal) :
  identity_present runtime user_key → get_user_id_from_runtime runtime = Ok user_key.
Proof.
  intros (c & u & Hc & Hu & Hi & Ht).
  unfold get_user_id_from_runtime.
  rewrite Hc; simpl. rewrite Hu; simpl. rewrite Hi; simpl. by rewrite Ht.
Qed.

(** C5.  A runtime context that lacks the nested authenticated-user
    descriptor at any level makes the binding fail at once with the
    "no authenticated user" error, before the gateway client is built or
    asked for tools; a context that carries an identity yields a client
    configuration whose [Arcade-User-Id] header is exactly that identity. *)
Theorem tool_gateway_binding
    (get_tools : gmap string ServerConfig → Result (list PyVal))
    (runtime : gmap string PyVal) :
  (identity_absent runtime →
     get_user_id_from_runtime runtime = Raise no_user ∧
     get_arcade_tools ARCADE_MCP_URL ARCADE_API_KEY get_tools runtime = Raise no_user)
  ∧
  (∀ user_key, identity_present runtime user_key →
     get_user_id_from_runtime runtime = Ok user_key ∧
     scoping_header (get_arcade_mcp_client ARCADE_MCP_URL ARCADE_API_KEY user_key)
       = Some user_key ∧
     get_arcade_tools ARCADE_MCP_URL ARCADE_API_KEY get_tools runtime
       = get_tools (get_arcade_mcp_client ARCADE_MCP_URL ARCADE_API_KEY user_key)).
Proof.
  split.
  - intros Habs. unfold get_arcade_tools.
    by rewrite (get_user_id_absent _ Habs).
  - intros user_key Hpre. unfold get_arcade_tools.
    rewrite (get_user_id_present _ _ Hpre).
    split; [done | split; [apply scoping_header_client | done]].
Qed.

End ToolGatewayBinding.

Lemma tool_gateway_binding_witness :
  (Props.identity_absent ∅ ∧
   ArcadeTools.get_arcade_tools "https://api.arcade.dev/v1/mcp" (Some "k")
     Scenario.tools_of ∅ = Raise ArcadeTools.no_user)
  ∧
  (Props.identity_present Scenario.runtime_ok (PStr "o1.t1") ∧
   ArcadeTools.scoping_header
     (ArcadeTools.get_arcade_mcp_client "https://api.arcade.dev/v1/mcp" (Some "k")
        (PStr "o1.t1")) = Some (PStr "o1.t1")).
Proof.
  assert (Habs : Props.identity_absent ∅) by (left; apply lookup_empty).
  assert (Hpre : Props.identity_present Scenario.runtime_ok (PStr "o1.t1")).
  { eexists _, _. unfold Scenario.runtime_ok.
    rewrite !lookup_singleton_eq. auto. }
  pose proof (tool_gateway_binding "https://api.arcade.dev/v1/mcp" (Some "k")
                Scenario.tools_of ∅) as [H1 _].
  pose proof (tool_gateway_binding "https://api.arcade.dev/v1/mcp" (Some "k")
                Scenario.tools_of Scenario.runtime_ok) as [_ H2].
  split.
  - split; [exact Habs | exact (proj2 (H1 Habs))].
  - split; [exact Hpre | exact (proj1 (proj2 (H2 _ Hpre)))].
Defined.

(** ** Symbolic execution of the handlers *)

Import App Props.

Ltac unfold_handlers :=
  unfold handle, root, login, auth_callback, verified_claims, auth_status, logout,
    get_tokens, arcade_verify in *.

Ltac unfold_monad :=
  unfold mbind, mret, M_bind, M_ret, try_except, call, call_pure, print,
    session_get, session_set, session_clear in *.

(** The innermost term a stuck [match] waits for. *)
Ltac scrutinee x :=
  lazymatch x with
  | context [match ?y with _ => _ end] => scrutinee y
  | _ => x
  end.

(** Split on the next test or oracle answer the run in [H] depends on. *)
Ltac run_step H :=
  lazymatch type of H with
  | (_, _) = (_, _) => injection H as <- <-
  | context [match ?x with _ => _ end] =>
      let y := scrutinee x in destruct y eqn:?; simpl in H
  end.

Lemma new_events_app (w w' : World) (evs : list Event) :
  log w' = log w ++ evs → new_events w w' = evs.
Proof. unfold new_events. intros ->. by rewrite drop_app_length. Qed.

Lemma new_events_nil (w : World) : new_events w w = [].
Proof. apply new_events_app. by rewrite app_nil_r. Qed.

Lemma new_events_same_session (w : World) s evs :
  new_events w (mkWorld s (log w ++ evs)) = evs.
Proof. by apply new_events_app. Qed.

(** Follow every path of the handler run in [H : handler ... w = (r, w')],
    leaving one goal per path with the transcript written out. *)
Ltac run_in H :=
  unfold_handlers; unfold_monad; simpl in H; repeat run_step H;
  rewrite <- ?app_assoc in *; simpl in *;
  rewrite ?new_events_same_session, ?new_events_nil in *.

(** Which element of a written-out list [H : x ∈ [a; b; ...]] speaks of. *)
Ltac inv_elem H :=
  rewrite ?elem_of_cons, ?elem_of_nil in H; destruct_or? H; try done; simplify_eq.

(** Which position of a written-out list [H : [a; b; ...] !! i = Some x]
    speaks of. *)
Ltac by_index i H :=
  simpl in H; repeat (first [ discriminate H | destruct i as [|i]; simpl in H ]).

Ltac bool_hyps :=
  repeat match goal with
         | H : negb _ = false |- _ => apply negb_false_iff in H
         | H : negb _ = true |- _ => apply negb_true_iff in H
         | H : _ || _ = false |- _ => apply orb_false_iff in H as [? ?]
         | H : _ && _ = true |- _ => apply andb_true_iff in H as [? ?]
         end.

(** As [run_step], for a second run next to one already followed: an answer
    the first run has fixed is reused, not split on again. *)
Ltac rerun_step H :=
  lazymatch type of H with
  | (_, _) = (_, _) => injection H as <- <-
  | context [match ?x with _ => _ end] =>
      let y := scrutinee x in
      first [ match goal with E : y = _ |- _ => rewrite E in H; simpl in H end
            | destruct y eqn:?; simpl in H ]
  end.

(** Find [x] in a written-out list. *)
Ltac pick_elem :=
  first [ apply elem_of_cons; left; reflexivity
        | apply elem_of_cons; right; pick_elem ].

(** Split on whether [k] is one of the keys just written. *)
Ltac key_cases k :=
  repeat match goal with
         | |- context [<[?j := _]> _ !! k] =>
             destruct (decide (j = k)) as [<- | ?];
             [ rewrite lookup_insert_eq | rewrite lookup_insert_ne by done ]
         end.

(** ** The verification handshake refuses an anonymous session *)

(** C1.  A [GET /arcade/verify] request that carries a flow_id, on a session
    without an authenticated user_key, is answered 401; the run crosses the
    process boundary not once, so neither [confirm_user] nor
    [wait_for_completion] is called, and the session is left as it was. *)
Theorem arcade_verify_requires_login
    (env : Env) (request : Request) (flow_id : string) (w : World) :
  flow_id ≠ "" →
  opt_truthy (session w !! "user_id") = false →
  ∃ resp w',
    arcade_verify env request flow_id w = (Ok resp, w') ∧
    status_code resp = 401 ∧
    new_events w w' = [] ∧
    gateway_calls (new_events w w') = [] ∧
    session w' = session w.
Proof.
  intros Hflow Hanon.
  apply String.eqb_neq in Hflow.
  unfold arcade_verify. rewrite Hflow.
  unfold_monad. simpl. rewrite Hanon. simpl.
  eexists _, w. split; [reflexivity |].
  rewrite new_events_nil. done.
Qed.

Lemma arcade_verify_requires_login_witness :
  ∃ resp w',
    arcade_verify Scenario.env_ok Scenario.request_empty "flow-1" Scenario.world_pending
      = (Ok resp, w') ∧
    status_code resp = 401 ∧
    new_events Scenario.world_pending w' = [] ∧
    gateway_calls (new_events Scenario.world_pending w') = [] ∧
    session w' = session Scenario.world_pending.
Proof.
  apply (arcade_verify_requires_login Scenario.env_ok Scenario.request_empty "flow-1"
           Scenario.world_pending).
  - discriminate.
  - reflexivity.
Defined.

(** ** The identity exchange *)

(** C2.  A [GET /auth/callback] run that fails before persistence (the
    [code] parameter is missing, or the id_token does not verify, or the
    verified claims lack [oid] or [tid]) is answered 400, leaves the session
    as it was and writes nothing to the Token Cache Store; and in every run,
    whatever its outcome, a Token Cache Store write comes only after a
    successful verification of the id_token. *)
Theorem auth_callback_fails_before_persistence
    (env : Env) (request : Request) (w : World) (r : Result Response) (w' : World) :
  auth_callback env request w = (r, w') →
  (fails_before_persistence request (new_events w w') →
     (∃ resp, r = Ok resp ∧ status_code resp = 400) ∧
     session w' = session w ∧
     cache_writes (new_events w w') = [])
  ∧ verified_before_write (new_events w w').
Proof.
  intros Hrun. run_in Hrun.
  all: split; [intros Hfail |].
  all: try (intros i c k out Hi; by_index i Hi; simplify_eq;
            try (exists 1%nat; eexists _, _; split; [lia | reflexivity])).
  all: try (split; [eexists; split; reflexivity | split; reflexivity]).
  all: exfalso; bool_hyps.
  all: destruct Hfail as [Hc | [(? & ? & Hin) | (? & ? & Hin & Hcl)]];
    [congruence | inv_elem Hin | inv_elem Hin; destruct Hcl; congruence].
Qed.

Lemma auth_callback_fails_before_persistence_witness :
  let run := auth_callback Scenario.env_bad_token Scenario.request_code
               Scenario.world_pending in
  fails_before_persistence Scenario.request_code
    (new_events Scenario.world_pending run.2) ∧
  (∃ resp, run.1 = Ok resp ∧ status_code resp = 400) ∧
  session run.2 = session Scenario.world_pending ∧
  cache_writes (new_events Scenario.world_pending run.2) = [] ∧
  verified_before_write (new_events Scenario.world_pending run.2).
Proof.
  intros run.
  assert (Hfail : fails_before_persistence Scenario.request_code
                    (new_events Scenario.world_pending run.2)).
  { right; left. exists "idt-1", Scenario.boom. vm_compute. repeat constructor. }
  destruct (auth_callback_fails_before_persistence
              Scenario.env_bad_token Scenario.request_code Scenario.world_pending
              run.1 run.2 (surjective_pairing run)) as [H1 H2].
  destruct (H1 Hfail) as (Hr & Hs & Hc).
  repeat split; assumption.
Defined.

(** C3.  A [GET /auth/callback] run that answers 200 made exactly one Token
    Cache Store write, and that write succeeded; a run whose Token Cache
    Store write raised is answered 400 and leaves the session as it was, so
    a session without an authenticated user stays without one: the failure
    is not papered over by session-only authentication. *)
Theorem auth_callback_single_cache_write
    (env : Env) (request : Request) (w : World) (r : Result Response) (w' : World) :
  auth_callback env request w = (r, w') →
  (∀ resp, r = Ok resp → status_code resp = 200 →
     ∃ container user_key,
       cache_writes (new_events w w')
       = [EvSaveTokenCacheToCosmos container user_key (Ok tt)])
  ∧
  (∀ container user_key e,
     EvSaveTokenCacheToCosmos container user_key (Raise e) ∈ new_events w w' →
     (∃ resp, r = Ok resp ∧ status_code resp = 400) ∧
     session w' = session w ∧
     (opt_truthy (session w !! "user_id") = false →
      opt_truthy (session w' !! "user_id") = false)).
Proof.
  intros Hrun. run_in Hrun.
  all: split; [intros resp [= <-] Hst; try done | intros c k e' Hin; inv_elem Hin].
  - destruct a2. by eexists _, _.
  - split; [by eexists | done].
Qed.

Lemma auth_callback_single_cache_write_witness :
  let ok := auth_callback Scenario.env_ok Scenario.request_code Scenario.world_pending in
  let ko := auth_callback Scenario.env_save_fails Scenario.request_code
              Scenario.world_pending in
  (∃ container user_key,
     cache_writes (new_events Scenario.world_pending ok.2)
     = [EvSaveTokenCacheToCosmos container user_key (Ok tt)])
  ∧ (∃ resp, ko.1 = Ok resp ∧ status_code resp = 400)
  ∧ session ko.2 = session Scenario.world_pending.
Proof.
  intros ok ko.
  destruct (auth_callback_single_cache_write
              Scenario.env_ok Scenario.request_code Scenario.world_pending
              ok.1 ok.2 (surjective_pairing ok)) as [Hone _].
  destruct (auth_callback_single_cache_write
              Scenario.env_save_fails Scenario.request_code Scenario.world_pending
              ko.1 ko.2 (surjective_pairing ko)) as [_ Hfail].
  split.
  - apply (Hone (EmptyResponse 200)); vm_compute; reflexivity.
  - destruct (Hfail (PObj 1) "o1.t1" Scenario.boom) as (Hr & Hs & _).
    + vm_compute. repeat constructor.
    + split; assumption.
Defined.

Lemma exchange_user_key
    (env : Env) (request : Request) (w w' : World) (id_claims : gmap string string) :
  successful_exchange env request w w' id_claims →
  ∃ oid tid,
    id_claims !! "oid" = Some oid ∧ id_claims !! "tid" = Some tid ∧
    oid ≠ "" ∧ tid ≠ "" ∧
    stored_user_key w w' (oid +:+ "." +:+ tid).
Proof.
  intros (resp & tok & Hrun & Hst & Hin).
  run_in Hrun; try done. inv_elem Hin. bool_hyps.
  match goal with
  | Ho : str_truthy (?c !! "oid") = true, Ht : str_truthy (?c !! "tid") = true |- _ =>
      destruct (c !! "oid") as [oid|] eqn:Hoid; simpl in *; [|done];
      destruct (c !! "tid") as [tid|] eqn:Htid; simpl in *; [|done]
  end.
  exists oid, tid.
  unfold stored_user_key. rewrite new_events_same_session. simpl.
  repeat split; try (intros ->; done).
  - rewrite !lookup_insert_ne by done. apply lookup_insert_eq.
  - destruct a2. by eexists.
Qed.

(** C9.  In every successful identity exchange the verified claims carry a
    non-empty [oid] and [tid], and the user identity key, bound to the
    session and used for the Token Cache Store write, is [oid], a dot,
    [tid]; so any other successful exchange whose claims carry the same
    [oid] and [tid] derives the same key, whatever else differs. *)
Theorem user_key_derivation
    (env : Env) (request : Request) (w w' : World) (id_claims : gmap string string) :
  successful_exchange env request w w' id_claims →
  (∃ oid tid,
     id_claims !! "oid" = Some oid ∧ id_claims !! "tid" = Some tid ∧
     oid ≠ "" ∧ tid ≠ "" ∧
     stored_user_key w w' (oid +:+ "." +:+ tid))
  ∧
  (∀ env2 request2 w2 w2' id_claims2,
     successful_exchange env2 request2 w2 w2' id_claims2 →
     id_claims2 !! "oid" = id_claims !! "oid" →
     id_claims2 !! "tid" = id_claims !! "tid" →
     ∃ user_key, stored_user_key w w' user_key ∧ stored_user_key w2 w2' user_key).
Proof.
  intros Hex.
  destruct (exchange_user_key _ _ _ _ _ Hex) as (oid & tid & Ho & Ht & Hno & Hnt & Hkey).
  split; [by exists oid, tid |].
  intros env2 request2 w2 w2' id_claims2 Hex2 Ho2 Ht2.
  destruct (exchange_user_key _ _ _ _ _ Hex2)
    as (oid2 & tid2 & Ho' & Ht' & _ & _ & Hkey2).
  rewrite Ho2, Ho in Ho'. rewrite Ht2, Ht in Ht'. simplify_eq.
  by exists (oid2 +:+ "." +:+ tid2).
Qed.

Lemma user_key_derivation_witness :
  let run := auth_callback Scenario.env_ok Scenario.request_code Scenario.world_pending in
  successful_exchange Scenario.env_ok Scenario.request_code Scenario.world_pending
    run.2 Scenario.claims ∧
  ∃ oid tid,
    Scenario.claims !! "oid" = Some oid ∧ Scenario.claims !! "tid" = Some tid ∧
    oid ≠ "" ∧ tid ≠ "" ∧
    stored_user_key Scenario.world_pending run.2 (oid +:+ "." +:+ tid).
Proof.
  intros run.
  assert (Hex : successful_exchange Scenario.env_ok Scenario.request_code
                  Scenario.world_pending run.2 Scenario.claims).
  { exists (EmptyResponse 200), "idt-1".
    split; [vm_compute; reflexivity |].
    split; [reflexivity |]. vm_compute. repeat constructor. }
  split; [exact Hex |].
  exact (proj1 (user_key_derivation _ _ _ _ _ Hex)).
Defined.

(** C8, as the code has it.  When the provider library raises during the
    token exchange, [GET /auth/callback] answers 400 with the fixed prefix
    followed by the text of the exception, [str(e)]; nothing is written to
    the session or to the Token Cache Store. *)
Theorem auth_callback_exchange_exception
    (env : Env) (request : Request) (w : World) (r : Result Response) (w' : World)
    (code : string) (scopes : list string) (redirect_uri : string) (e : Exc) :
  auth_callback env request w = (r, w') →
  EvAcquireTokenByAuthorizationCode code scopes redirect_uri (Raise e)
    ∈ new_events w w' →
  r = Ok (PlainResponse
            ("❌ Auth Callback Error: Token exchange failed raising " +:+ exc_str e) 400)
  ∧ session w' = session w
  ∧ cache_writes (new_events w w') = [].
Proof.
  intros Hrun Hin. run_in Hrun; inv_elem Hin. done.
Qed.

Lemma auth_callback_exchange_exception_witness :
  let run := auth_callback Scenario.env_exchange_fails Scenario.request_code
               Scenario.world_fresh in
  run.1 = Ok (PlainResponse
    ("❌ Auth Callback Error: Token exchange failed raising " +:+ exc_str Scenario.boom)
    400)
  ∧ session run.2 = session Scenario.world_fresh
  ∧ cache_writes (new_events Scenario.world_fresh run.2) = [].
Proof.
  intros run.
  apply (auth_callback_exchange_exception
           Scenario.env_exchange_fails Scenario.request_code Scenario.world_fresh
           run.1 run.2 "c0de" [] "http://localhost:8000/auth/callback" Scenario.boom
           (surjective_pairing run)).
  vm_compute. repeat constructor.
Defined.

(** C8, as the claim has it, fails: with a provider library that raises
    [ConnectionError("proxy 10.0.0.7 refused")] during the token exchange,
    the 400 body of an anonymous caller's request contains that text. *)
Lemma auth_callback_leaks_exception_text :
  let run := auth_callback Scenario.env_exchange_fails Scenario.request_code
               Scenario.world_fresh in
  new_events Scenario.world_fresh run.2 =
    [ EvAcquireTokenByAuthorizationCode
        "c0de" [] "http://localhost:8000/auth/callback" (Raise Scenario.boom) ] ∧
  run.1 = Ok (PlainResponse
    "❌ Auth Callback Error: Token exchange failed raising proxy 10.0.0.7 refused" 400) ∧
  contains (exc_str Scenario.boom)
    "❌ Auth Callback Error: Token exchange failed raising proxy 10.0.0.7 refused"
  = true.
Proof. vm_compute. repeat split. Qed.

(** ** The verification handshake *)

(** C4, as the code has it.  On an authenticated session and a flow_id, with
    a gateway that answers, [GET /arcade/verify] builds the client, calls
    [confirm_user] with that flow_id and the session's user_key, then awaits
    [wait_for_completion] on the authorization [confirm_user] named, in this
    order and nothing else.  When the status is [completed] the answer is a
    307 redirect to the gateway's continuation URL if there is one, else the
    200 HTML success page; for any other status it is 400 with the status
    string in the body. *)
Theorem arcade_verify_handshake
    (env : Env) (request : Request) (flow_id : string) (w : World)
    (user_key client : PyVal) (result : ConfirmUserResponse)
    (auth_response : AuthorizationResponse) :
  flow_id ≠ "" →
  session w !! "user_id" = Some user_key →
  truthy user_key = true →
  gateway_answers env w flow_id user_key client result auth_response →
  ∃ resp w',
    arcade_verify env request flow_id w = (Ok resp, w') ∧
    new_events w w' =
      [ EvAsyncArcade (Ok client);
        EvConfirmUser flow_id user_key (Ok result);
        EvWaitForCompletion (auth_id result) (Ok auth_response) ] ∧
    session w' = session w ∧
    (status auth_response = Some "completed" →
       (∀ url, next_uri result = Some url → url ≠ "" →
          resp = RedirectResponse url ∧ status_code resp = 307) ∧
       (str_truthy (next_uri result) = false →
          resp = HTMLResponse success_page 200)) ∧
    (status auth_response ≠ Some "completed" →
       resp = PlainResponse
                ("❌ Arcade Verify Error: Authorization status: "
                   +:+ fmt (status auth_response)) 400).
Proof.
  intros Hflow Huid Htruthy (Hclient & Hconfirm & Hwait).
  apply String.eqb_neq in Hflow.
  destruct (arcade_verify env request flow_id w) as [r w'] eqn:Hrun.
  unfold arcade_verify in Hrun. rewrite Hflow in Hrun. unfold_monad.
  simpl in Hrun. rewrite Huid in Hrun. simpl in Hrun. rewrite Htruthy in Hrun.
  simpl in Hrun. rewrite Hclient in Hrun. simpl in Hrun.
  rewrite Hconfirm in Hrun. simpl in Hrun.
  rewrite <- app_assoc in Hrun. simpl in Hrun. rewrite Hwait in Hrun.
  simpl in Hrun.
  repeat run_step Hrun.
  all: eexists _, _; split; [reflexivity |].
  all: rewrite <- ?app_assoc; simpl; rewrite new_events_same_session.
  all: split; [reflexivity | split; [reflexivity |]].
  all: repeat match goal with
              | H : bool_decide _ = true |- _ => apply bool_decide_eq_true in H
              | H : bool_decide _ = false |- _ => apply bool_decide_eq_false in H
              end.
  all: split; [intros Hdone | intros Hnot]; try done.
  - split; [intros url Hurl Hne | intros Hno; congruence].
    rewrite Hurl. done.
  - split; [intros url Hurl Hne | done].
    rewrite Hurl in *. simpl in *. apply String.eqb_neq in Hne.
    match goal with H : negb _ = false |- _ => rewrite Hne in H; done end.
Qed.

Lemma arcade_verify_handshake_witness :
  ∃ resp w',
    arcade_verify Scenario.env_expired Scenario.request_empty "flow-1"
      Scenario.world_logged_in = (Ok resp, w') ∧
    new_events Scenario.world_logged_in w' =
      [ EvAsyncArcade (Ok (PObj 2));
        EvConfirmUser "flow-1" (PStr "o1.t1") (Ok Scenario.confirmed_next);
        EvWaitForCompletion "auth-1" (Ok Scenario.expired) ] ∧
    resp = PlainResponse "❌ Arcade Verify Error: Authorization status: expired" 400.
Proof.
  destruct (arcade_verify_handshake
              Scenario.env_expired Scenario.request_empty "flow-1"
              Scenario.world_logged_in (PStr "o1.t1") (PObj 2)
              Scenario.confirmed_next Scenario.expired)
    as (resp & w' & Hrun & Hev & _ & _ & Hother).
  - discriminate.
  - reflexivity.
  - reflexivity.
  - repeat split.
  - exists resp, w'. split; [exact Hrun |]. split; [exact Hev |].
    apply Hother. discriminate.
Defined.

(** C4, as the claim has it, fails: with a gateway that reports [completed]
    and supplies a continuation URL, the answer is the redirect, whose status
    code is 307 and not 200. *)
Lemma arcade_verify_redirect_is_307 :
  let run := arcade_verify Scenario.env_ok Scenario.request_empty "flow-1"
               Scenario.world_logged_in in
  new_events Scenario.world_logged_in run.2 =
    [ EvAsyncArcade (Ok (PObj 2));
      EvConfirmUser "flow-1" (PStr "o1.t1") (Ok Scenario.confirmed_next);
      EvWaitForCompletion "auth-1" (Ok Scenario.completed) ] ∧
  run.1 = Ok (RedirectResponse "https://gateway.example/next") ∧
  status_code (RedirectResponse "https://gateway.example/next") = 307 ∧
  Z.eqb (status_code (RedirectResponse "https://gateway.example/next")) 200 = false.
Proof. vm_compute. repeat split. Qed.

(** ** The session check *)

(** C6, on the code.  After a [GET /auth/callback] that completed a login
    (200) on a session that held no [access_token] key, the session carries
    the authenticated [user_id], and [GET /auth/status] on it still answers
    [authenticated: false]: the handler reads the key [access_token], which
    the login never writes. *)
Theorem auth_status_after_login
    (env : Env) (request request' : Request) (w : World) (resp : Response) (w' : World) :
  session w !! "access_token" = None →
  auth_callback env request w = (Ok resp, w') →
  status_code resp = 200 →
  opt_truthy (session w' !! "user_id") = true ∧
  auth_status request' w'
  = (Ok (JSONResponse [("authenticated", PBool false)] 200), w').
Proof.
  intros Hnone Hrun Hok. run_in Hrun; try done.
  unfold_monad. simpl. split.
  - rewrite !lookup_insert_ne by done. rewrite lookup_insert_eq. simpl.
    bool_hyps.
    match goal with
    | Ho : str_truthy (?c !! "oid") = true |- _ =>
        destruct (c !! "oid") as [oid|]; simpl in *; [|done]
    end.
    by destruct oid.
  - rewrite !lookup_insert_ne by done. by rewrite Hnone.
Qed.

Lemma auth_status_after_login_witness :
  let run := auth_callback Scenario.env_ok Scenario.request_code Scenario.world_fresh in
  run.1 = Ok (EmptyResponse 200) ∧
  session run.2 !! "user_id" = Some (PStr "o1.t1") ∧
  auth_status Scenario.request_empty run.2
  = (Ok (JSONResponse [("authenticated", PBool false)] 200), run.2).
Proof.
  intros run.
  assert (Hrun : auth_callback Scenario.env_ok Scenario.request_code Scenario.world_fresh
                 = (Ok (EmptyResponse 200), run.2)) by (vm_compute; reflexivity).
  split; [vm_compute; reflexivity |].
  split; [vm_compute; reflexivity |].
  apply (auth_status_after_login Scenario.env_ok Scenario.request_code
           Scenario.request_empty Scenario.world_fresh (EmptyResponse 200) run.2).
  - reflexivity.
  - exact Hrun.
  - reflexivity.
Defined.

Lemma handle_keeps_access_token_absent
    (env : Env) (ep : Endpoint) (request : Request) (w : World)
    (r : Result Response) (w' : World) :
  session w !! "access_token" = None →
  handle env ep request w = (r, w') →
  session w' !! "access_token" = None.
Proof.
  intros Hnone Hrun. destruct ep; run_in Hrun.
  all: rewrite ?lookup_insert_ne by done; first [ exact Hnone | apply lookup_empty ].
Qed.

Lemma reachable_no_access_token (env : Env) (w : World) :
  reachable env w → session w !! "access_token" = None.
Proof.
  induction 1 as [| w ep request r w' _ IH Hrun | w _ _]; simpl.
  - apply lookup_empty.
  - exact (handle_keeps_access_token_absent _ _ _ _ _ _ IH Hrun).
  - apply lookup_empty.
Qed.

(** X23.  In no world the application can reach does [GET /auth/status]
    answer anything but [authenticated: false]: no route writes the
    [access_token] key it reads. *)
Lemma auth_status_never_authenticated (env : Env) (request : Request) (w : World) :
  reachable env w →
  auth_status request w
  = (Ok (JSONResponse [("authenticated", PBool false)] 200), w).
Proof.
  intros Hreach. unfold auth_status. unfold_monad. simpl.
  by rewrite (reachable_no_access_token _ _ Hreach).
Qed.

(** ** The CSRF nonce *)

Lemma same_but_state_lookup {V} (m1 m2 : gmap string V) (k : string) :
  same_but_state m1 m2 → k ≠ "state" → m1 !! k = m2 !! k.
Proof.
  intros Hsame Hk.
  rewrite <- (lookup_delete_ne m1 "state" k), <- (lookup_delete_ne m2 "state" k) by done.
  by rewrite Hsame.
Qed.

Lemma same_but_state_insert {V} (m1 m2 : gmap string V) (k : string) (v : V) :
  same_but_state m1 m2 → same_but_state (<[k := v]> m1) (<[k := v]> m2).
Proof.
  unfold same_but_state. intros Hsame.
  destruct (decide (k = "state")) as [-> | Hk].
  - by rewrite !delete_insert_eq.
  - by rewrite !delete_insert_ne, Hsame.
Qed.

(** C7.  Two [GET /auth/callback] requests that differ at most in the
    [state] value of the query string, on sessions that differ at most in
    the stored [state] nonce, after the same history, get the same answer,
    make the same calls with the same outcomes, and leave sessions that
    again differ at most in [state], which neither run touches: sign-in
    completes without the nonce being compared. *)
Theorem callback_ignores_state
    (env : Env) (request1 request2 : Request) (w1 w2 : World) :
  same_but_state (query_params request1) (query_params request2) →
  same_but_state (session w1) (session w2) →
  log w1 = log w2 →
  (auth_callback env request1 w1).1 = (auth_callback env request2 w2).1 ∧
  log (auth_callback env request1 w1).2 = log (auth_callback env request2 w2).2 ∧
  same_but_state (session (auth_callback env request1 w1).2)
                 (session (auth_callback env request2 w2).2) ∧
  session (auth_callback env request1 w1).2 !! "state" = session w1 !! "state" ∧
  session (auth_callback env request2 w2).2 !! "state" = session w2 !! "state".
Proof.
  intros Hq Hs Hlog.
  pose proof (same_but_state_lookup _ _ "code" Hq ltac:(done)) as Hcode.
  pose proof (same_but_state_lookup _ _ "scopes" Hq ltac:(done)) as Hscopes.
  destruct w1 as [s1 l], w2 as [s2 l2]; simpl in Hs, Hlog; subst l2.
  destruct (auth_callback env request1 _) as [r1 w1'] eqn:H1.
  destruct (auth_callback env request2 _) as [r2 w2'] eqn:H2.
  unfold auth_callback, verified_claims in H1, H2. unfold_monad.
  simpl in H1, H2. rewrite <- ?Hcode, <- ?Hscopes in H2.
  repeat run_step H1.
  all: simpl in H2; repeat rerun_step H2.
  all: simpl; rewrite ?lookup_insert_ne by done.
  all: repeat split; try done.
  all: by repeat apply same_but_state_insert.
Qed.

Lemma callback_ignores_state_witness :
  (auth_callback Scenario.env_ok Scenario.request_code Scenario.world_pending).1
  = (auth_callback Scenario.env_ok Scenario.request_code_state Scenario.world_fresh).1
  ∧
  log (auth_callback Scenario.env_ok Scenario.request_code Scenario.world_pending).2
  = log (auth_callback Scenario.env_ok Scenario.request_code_state Scenario.world_fresh).2.
Proof.
  destruct (callback_ignores_state Scenario.env_ok
              Scenario.request_code Scenario.request_code_state
              Scenario.world_pending Scenario.world_fresh)
    as (Hr & Hl & _).
  - vm_compute. reflexivity.
  - vm_compute. reflexivity.
  - reflexivity.
  - split; assumption.
Defined.

(** ** What the session holds *)

(** C10.  Whatever the endpoint, a request either clears the session (only
    [/auth/logout] does) or leaves every key as it was except [state],
    [user_id], [auth_time], [user_email] and [user_name], and what it writes
    under those is the random nonce, the clock reading, or a value read from
    the verified id_token's claims: no access, id or refresh token.  A JSON
    body with a token field is answered by [/auth/tokens] alone, and holds
    the pair the refresh helper returned for the Token Cache Store entry of
    the session's user. *)
Theorem session_holds_no_token
    (env : Env) (ep : Endpoint) (request : Request) (w : World)
    (r : Result Response) (w' : World) :
  handle env ep request w = (r, w') →
  ((ep = GetAuthLogout ∧ session w' = ∅) ∨
   (∀ k, session w' !! k = session w !! k ∨
      (k ∈ session_keys ∧
       ∃ v, session w' !! k = Some v ∧ written_by k v (new_events w w'))))
  ∧
  (∀ resp content,
     r = Ok resp → body resp = Json content → names_token content →
     ep = GetAuthTokens ∧ served_from_cache w content (new_events w w')).
Proof.
  intros Hrun. destruct ep; run_in Hrun.
  all: split;
    [ first [ by left | right; intros k; key_cases k; first [ by left | right ] ]
    | intros resp content [= <-] Hbody (k & v & Hin & Hk);
      simpl in Hbody; try discriminate Hbody; injection Hbody as <-;
      try (exfalso; inv_elem Hin; destruct_or? Hk; discriminate Hk) ].
  all: try (split;
    [ unfold session_keys; pick_elem
    | eexists; split; [reflexivity | unfold written_by ];
      first [ left; split; [done | eexists _, _; split; [pick_elem | done]]
            | right; left; split; [done | eexists; split; [pick_elem | done]]
            | right; right; eexists _, _; split;
              [ pick_elem
              | first [ left; done | right; left; done | right; right; done ] ] ] ]).
  split; [done |].
  match goal with
  | H : negb (opt_truthy (session w !! "user_id")) = false |- _ =>
      destruct (session w !! "user_id") as [user_id|] eqn:Huid; [| done]
  end.
  eexists _, _, _, _, _.
  split; [exact Huid |].
  split; [pick_elem |].
  split; [pick_elem | reflexivity].
Qed.

Lemma session_holds_no_token_witness :
  let run := handle Scenario.env_ok GetAuthCallback Scenario.request_code
               Scenario.world_pending in
  (∀ k, session run.2 !! k = session Scenario.world_pending !! k ∨
     (k ∈ session_keys ∧
      ∃ v, session run.2 !! k = Some v ∧
           written_by k v (new_events Scenario.world_pending run.2)))
  ∧ session run.2 !! "access_token" = None
  ∧ session run.2 !! "user_id" = Some (PStr "o1.t1").
Proof.
  intros run.
  destruct (session_holds_no_token Scenario.env_ok GetAuthCallback
              Scenario.request_code Scenario.world_pending run.1 run.2
              (surjective_pairing run)) as [[[Hep _] | Hkeys] _].
  - discriminate Hep.
  - split; [exact Hkeys |]. split; vm_compute; reflexivity.
Defined.

(** * Further properties of the code *)

(** ** [arcade_tools.py] and [agent.py] *)

Import ArcadeTools.

Section MoreBinding.
Variable ARCADE_MCP_URL : string.
Variable ARCADE_API_KEY : option string.

Lemma get_user_id_ok_present (runtime : gmap string PyVal) (user_key : PyVal) :
  get_user_id_from_runtime runtime = Ok user_key → identity_present runtime user_key.
Proof.
  unfold get_user_id_from_runtime, identity_present.
  destruct (runtime !! "configurable") as [[| | | | | |c]|] eqn:Hc; simpl;
    rewrite ?lookup_empty; simpl; try done.
  destruct (c !! "langgraph_auth_user") as [[| | | | | |u]|] eqn:Hu; simpl;
    rewrite ?lookup_empty; simpl; try done.
  destruct (u !! "identity") as [v|] eqn:Hi; simpl; [|done].
  destruct (truthy v) eqn:Ht; simpl; [|done].
  intros [= <-]. by exists c, u.
Qed.

(** X18.  [get_user_id_from_runtime] returns a user id exactly when the
    runtime context carries, three dicts deep, an [identity] that is truthy;
    the id it returns is that identity. *)
Theorem get_user_id_iff_present (runtime : gmap string PyVal) (user_key : PyVal) :
  get_user_id_from_runtime runtime = Ok user_key ↔ identity_present runtime user_key.
Proof.
  split; [apply get_user_id_ok_present | apply get_user_id_present].
Qed.

(** X19.  An [identity] that is there but falsy (the empty string, [None],
    zero) is refused like a missing one. *)
Theorem get_user_id_falsy_identity
    (runtime configurable user : gmap string PyVal) (identity : PyVal) :
  runtime !! "configurable" = Some (PDict configurable) →
  configurable !! "langgraph_auth_user" = Some (PDict user) →
  user !! "identity" = Some identity →
  truthy identity = false →
  get_user_id_from_runtime runtime = Raise no_user.
Proof.
  intros Hc Hu Hi Ht. unfold get_user_id_from_runtime.
  rewrite Hc; simpl. rewrite Hu; simpl. rewrite Hi; simpl. by rewrite Ht.
Qed.

(** X20.  The defaults of [get] cover a missing key only: when
    [configurable] or [langgraph_auth_user] is bound to [None] or another
    scalar, the lookup fails with [AttributeError] instead of the
    "no authenticated user" error, and no client is built. *)
Theorem get_user_id_scalar_level
    (get_tools : gmap string ServerConfig → Result (list PyVal))
    (runtime : gmap string PyVal) (v : PyVal) :
  scalar v = true →
  runtime !! "configurable" = Some v ∨
  (∃ configurable, runtime !! "configurable" = Some (PDict configurable) ∧
     configurable !! "langgraph_auth_user" = Some v) →
  ∃ e, get_user_id_from_runtime runtime = Raise e ∧
       exc_type e = "AttributeError" ∧
       get_arcade_tools ARCADE_MCP_URL ARCADE_API_KEY get_tools runtime = Raise e.
Proof.
  intros Hv [Hc | (c & Hc & Hu)]; unfold get_arcade_tools, get_user_id_from_runtime;
    rewrite Hc; simpl; [| rewrite Hu; simpl]; destruct v; try done; by eexists.
Qed.

Variable runtime_type : gmap string PyVal → string.

(** X21.  The graph factory yields an agent only for a runtime context with
    a truthy identity: the tools come from the client scoped to that
    identity, the agent is built from exactly those tools with the fixed
    model and prompt, and the closing line prints their number.  Without
    the identity descriptor it prints the opening line only and raises,
    whatever the tool and agent builders would have done. *)
Theorem create_arcade_agent_scoped
    (get_tools : gmap string ServerConfig → Result (list PyVal))
    (create_agent : string → list PyVal → string → Result PyVal)
    (runtime : gmap string PyVal) :
  (∀ printed agent,
     Agent.create_arcade_agent ARCADE_MCP_URL ARCADE_API_KEY runtime_type
       get_tools create_agent runtime = (printed, Ok agent) →
     ∃ user_key tools,
       identity_present runtime user_key ∧
       scoping_header (get_arcade_mcp_client ARCADE_MCP_URL ARCADE_API_KEY user_key)
         = Some user_key ∧
       get_tools (get_arcade_mcp_client ARCADE_MCP_URL ARCADE_API_KEY user_key)
         = Ok tools ∧
       create_agent "openai:gpt-4o" tools "You're a helpful assistant." = Ok agent ∧
       printed = [ "🚀 create_arcade_agent called with runtime: "
                     +:+ runtime_type runtime;
                   "✅ Agent created with " +:+ pretty (length tools) +:+ " tools" ])
  ∧
  (identity_absent runtime →
     Agent.create_arcade_agent ARCADE_MCP_URL ARCADE_API_KEY runtime_type
       get_tools create_agent runtime
     = ([ "🚀 create_arcade_agent called with runtime: " +:+ runtime_type runtime ],
        Raise no_user)).
Proof.
  unfold Agent.create_arcade_agent, get_arcade_tools. split.
  - intros printed agent.
    destruct (get_user_id_from_runtime runtime) as [uid|e] eqn:Huid; simpl; [|done].
    destruct (get_tools _) as [tools|e] eqn:Htools; [|done].
    destruct (create_agent _ _ _) as [agent'|e] eqn:Hagent; [|done].
    intros [= <- <-]. exists uid, tools.
    split; [by apply get_user_id_ok_present |].
    split; [apply scoping_header_client |]. done.
  - intros Habs. by rewrite (get_user_id_absent _ Habs).
Qed.

End MoreBinding.

Lemma get_user_id_falsy_identity_witness :
  get_user_id_from_runtime Scenario.runtime_empty_identity = Raise no_user.
Proof.
  apply (get_user_id_falsy_identity Scenario.runtime_empty_identity
           {[ "langgraph_auth_user" := PDict {[ "identity" := PStr "" ]} ]}
           {[ "identity" := PStr "" ]} (PStr "")).
  - apply lookup_singleton_eq.
  - apply lookup_singleton_eq.
  - apply lookup_singleton_eq.
  - reflexivity.
Defined.

Lemma get_user_id_scalar_level_witness :
  ∃ e, get_user_id_from_runtime Scenario.runtime_none_configurable = Raise e ∧
       exc_type e = "AttributeError" ∧
       get_arcade_tools "https://api.arcade.dev/v1/mcp" (Some "k") Scenario.tools_of
         Scenario.runtime_none_configurable = Raise e.
Proof.
  apply (get_user_id_scalar_level "https://api.arcade.dev/v1/mcp" (Some "k")
           Scenario.tools_of Scenario.runtime_none_configurable PNone).
  - reflexivity.
  - left. apply lookup_singleton_eq.
Defined.

Lemma create_arcade_agent_scoped_witness :
  let made := Agent.create_arcade_agent "https://api.arcade.dev/v1/mcp" (Some "k")
                Scenario.type_of Scenario.tools_of Scenario.agent_of in
  (∃ user_key tools,
     identity_present Scenario.runtime_ok user_key ∧
     Scenario.tools_of
       (get_arcade_mcp_client "https://api.arcade.dev/v1/mcp" (Some "k") user_key)
     = Ok tools ∧
     (made Scenario.runtime_ok).1
     = [ "🚀 create_arcade_agent called with runtime: " +:+
           Scenario.type_of Scenario.runtime_ok;
         "✅ Agent created with " +:+ pretty (length tools) +:+ " tools" ])
  ∧ made ∅ = ([ "🚀 create_arcade_agent called with runtime: " +:+ Scenario.type_of ∅ ],
              Raise no_user).
Proof.
  intros made.
  destruct (create_arcade_agent_scoped "https://api.arcade.dev/v1/mcp" (Some "k")
              Scenario.type_of Scenario.tools_of Scenario.agent_of Scenario.runtime_ok)
    as [Hok _].
  destruct (create_arcade_agent_scoped "https://api.arcade.dev/v1/mcp" (Some "k")
              Scenario.type_of Scenario.tools_of Scenario.agent_of ∅)
    as [_ Habs].
  split.
  - destruct (Hok (made Scenario.runtime_ok).1
                  (PDict {[ "model" := PStr "openai:gpt-4o" ]}))
      as (user_key & tools & Hpre & _ & Htools & _ & Hprinted).
    + vm_compute. reflexivity.
    + exists user_key, tools. split; [exact Hpre |]. split; [exact Htools |].
      exact Hprinted.
  - apply Habs. left. apply lookup_empty.
Defined.

(** ** Scope parsing *)












(** ** The handlers, one by one *)

Lemma new_events_cleared (w : World) s : new_events w (mkWorld s (log w)) = [].
Proof. unfold new_events. simpl. apply drop_all. Qed.

(** X1.  [GET /auth/tokens] on a session without an authenticated user_key
    answers 401 "No valid session" without touching the Token Cache Store,
    the provider or the session. *)
Theorem get_tokens_requires_login (env : Env) (request : Request) (w : World) :
  opt_truthy (session w !! "user_id") = false →
  get_tokens env request w
  = (Ok (JSONResponse
           [("error", PStr "❌ Token Issuance Error: No valid session")] 401), w).
Proof.
  intros Hanon. unfold get_tokens. unfold_monad. simpl. by rewrite Hanon.
Qed.

Lemma get_tokens_requires_login_witness :
  get_tokens Scenario.env_ok Scenario.request_empty Scenario.world_pending
  = (Ok (JSONResponse
           [("error", PStr "❌ Token Issuance Error: No valid session")] 401),
     Scenario.world_pending).
Proof.
  apply (get_tokens_requires_login Scenario.env_ok Scenario.request_empty
           Scenario.world_pending).
  reflexivity.
Defined.

(** X2.  [GET /auth/tokens] never raises and never changes the session; it
    answers 200 with the token pair the refresh helper returned for a truthy
    cache entry, or 401 with a single [error] message. *)
Theorem get_tokens_outcomes
    (env : Env) (request : Request) (w : World) (r : Result Response) (w' : World) :
  get_tokens env request w = (r, w') →
  session w' = session w ∧
  ∃ resp, r = Ok resp ∧
    ((status_code resp = 200 ∧
      ∃ token_info scopes tokens,
        truthy token_info = true ∧
        EvGetRefreshedAzureTokens token_info scopes (Ok tokens) ∈ new_events w w' ∧
        body resp = Json [("access_token", PStr tokens.1); ("id_token", PStr tokens.2)])
     ∨
     (status_code resp = 401 ∧ ∃ message, body resp = Json [("error", PStr message)])).
Proof.
  intros Hrun. run_in Hrun.
  all: split; [done |]; eexists; split; [reflexivity |].
  all: try (right; split; [done | by eexists]).
  left. split; [done |]. bool_hyps. eexists _, _, _.
  split; [eassumption |]. split; [pick_elem | done].
Qed.

Lemma get_tokens_outcomes_witness :
  let run := get_tokens Scenario.env_ok Scenario.request_empty
               Scenario.world_logged_in in
  run.1 = Ok (JSONResponse
                [("access_token", PStr "at-2"); ("id_token", PStr "idt-2")] 200) ∧
  session run.2 = session Scenario.world_logged_in ∧
  ∃ resp, run.1 = Ok resp ∧
    ((status_code resp = 200 ∧
      ∃ token_info scopes tokens,
        truthy token_info = true ∧
        EvGetRefreshedAzureTokens token_info scopes (Ok tokens)
          ∈ new_events Scenario.world_logged_in run.2 ∧
        body resp = Json [("access_token", PStr tokens.1); ("id_token", PStr tokens.2)])
     ∨
     (status_code resp = 401 ∧ ∃ message, body resp = Json [("error", PStr message)])).
Proof.
  intros run. split; [vm_compute; reflexivity |].
  exact (get_tokens_outcomes Scenario.env_ok Scenario.request_empty
           Scenario.world_logged_in run.1 run.2 (surjective_pairing run)).
Defined.

(** X3.  When the Token Cache Store has no usable entry for the session's
    user, [GET /auth/tokens] answers 401 "No token info found in cache"
    after the container and cache lookups, and the refresh helper is not
    called. *)
Theorem get_tokens_cache_miss
    (env : Env) (request : Request) (w : World) (r : Result Response) (w' : World)
    (user_id container token_info : PyVal) :
  get_tokens env request w = (r, w') →
  EvExtractInfoFromCache user_id container (Ok token_info) ∈ new_events w w' →
  truthy token_info = false →
  r = Ok (JSONResponse
            [("error", PStr "❌ Token Issuance Error: No token info found in cache")] 401)
  ∧ new_events w w' =
      [ EvGetCosmosContainer (Ok container);
        EvExtractInfoFromCache user_id container (Ok token_info) ].
Proof.
  intros Hrun Hin Hfalsy. run_in Hrun; inv_elem Hin; bool_hyps; try done; congruence.
Qed.

Lemma get_tokens_cache_miss_witness :
  let run := get_tokens Scenario.env_cache_miss Scenario.request_empty
               Scenario.world_logged_in in
  run.1 = Ok (JSONResponse
            [("error", PStr "❌ Token Issuance Error: No token info found in cache")] 401)
  ∧ new_events Scenario.world_logged_in run.2 =
      [ EvGetCosmosContainer (Ok (PObj 1));
        EvExtractInfoFromCache (PStr "o1.t1") (PObj 1) (Ok PNone) ].
Proof.
  intros run.
  apply (get_tokens_cache_miss Scenario.env_cache_miss Scenario.request_empty
           Scenario.world_logged_in run.1 run.2 (PStr "o1.t1") (PObj 1) PNone
           (surjective_pairing run)).
  - vm_compute. repeat constructor.
  - reflexivity.
Defined.

(** X4.  When a collaborator of [GET /auth/tokens] raises (the container,
    the cache lookup or the refresh helper), the run stops at that call and
    answers 401 with "Token Issuance Error: " followed by the text of the
    exception. *)
Theorem get_tokens_exception
    (env : Env) (request : Request) (w : World) (r : Result Response) (w' : World)
    (ev : Event) (e : Exc) :
  get_tokens env request w = (r, w') →
  ev ∈ new_events w w' →
  outcome_exc ev = Some e →
  r = Ok (JSONResponse
            [("error", PStr ("❌ Token Issuance Error: " +:+ exc_str e))] 401)
  ∧ last (new_events w w') = Some ev.
Proof.
  intros Hrun Hin Hexc. run_in Hrun; inv_elem Hin; simpl in Hexc; by simplify_eq.
Qed.

Lemma get_tokens_exception_witness :
  let run := get_tokens Scenario.env_refresh_fails Scenario.request_empty
               Scenario.world_logged_in in
  run.1 = Ok (JSONResponse
            [("error", PStr ("❌ Token Issuance Error: " +:+ exc_str Scenario.boom))] 401)
  ∧ last (new_events Scenario.world_logged_in run.2)
    = Some (EvGetRefreshedAzureTokens (PDict {[ "blob" := PStr "cache" ]})
              [ "email"; "api://agent/access" ] (Raise Scenario.boom)).
Proof.
  intros run.
  apply (get_tokens_exception Scenario.env_refresh_fails Scenario.request_empty
           Scenario.world_logged_in run.1 run.2 _ Scenario.boom
           (surjective_pairing run)).
  - vm_compute. repeat constructor.
  - reflexivity.
Defined.

(** X5.  [GET /auth/login] draws a 16-byte nonce, stores it under [state]
    and leaves every other session key alone, and asks MSAL for the
    authorization URL with that same nonce as [state], the email and
    application scopes, the configured redirect URI and
    [prompt=select_account]; it answers that URL, or fails with the
    exception MSAL raised, the nonce already stored. *)
Theorem login_binds_nonce
    (env : Env) (request : Request) (w : World) (r : Result Response) (w' : World) :
  login env request w = (r, w') →
  ∃ nonce out,
    session w' = <["state" := PStr nonce]> (session w) ∧
    new_events w w' =
      [ EvTokenUrlsafe 16 nonce;
        EvGetAuthorizationRequestUrl
          [ "email"; AAD_APPLICATION_URI env +:+ "/access" ]
          (AAD_REDIRECT_URI env) nonce "select_account" out ] ∧
    r = match out with
        | Ok auth_url => Ok (JSONResponse [("auth_url", PStr auth_url)] 200)
        | Raise e => Raise e
        end.
Proof.
  intros Hrun. run_in Hrun; by eexists _, _.
Qed.

Lemma login_binds_nonce_witness :
  let run := login Scenario.env_ok Scenario.request_empty Scenario.world_logged_in in
  session run.2 !! "user_id" = Some (PStr "o1.t1") ∧
  ∃ nonce out,
    session run.2 = <["state" := PStr nonce]> (session Scenario.world_logged_in) ∧
    new_events Scenario.world_logged_in run.2 =
      [ EvTokenUrlsafe 16 nonce;
        EvGetAuthorizationRequestUrl
          [ "email"; AAD_APPLICATION_URI Scenario.env_ok +:+ "/access" ]
          (AAD_REDIRECT_URI Scenario.env_ok) nonce "select_account" out ] ∧
    run.1 = match out with
            | Ok auth_url => Ok (JSONResponse [("auth_url", PStr auth_url)] 200)
            | Raise e => Raise e
            end.
Proof.
  intros run. split; [vm_compute; reflexivity |].
  exact (login_binds_nonce Scenario.env_ok Scenario.request_empty
           Scenario.world_logged_in run.1 run.2 (surjective_pairing run)).
Defined.

(** X6.  Only [/auth/login] lets an exception escape: when a route fails
    with an exception instead of answering, the route is [/auth/login] and
    the exception is the one MSAL raised while building the authorization
    URL, the last call of the run. *)
Theorem handlers_catch_exceptions
    (env : Env) (ep : Endpoint) (request : Request) (w : World)
    (e : Exc) (w' : World) :
  handle env ep request w = (Raise e, w') →
  ep = GetAuthLogin ∧
  ∃ scopes redirect_uri state prompt,
    last (new_events w w')
    = Some (EvGetAuthorizationRequestUrl scopes redirect_uri state prompt (Raise e)).
Proof.
  intros Hrun. destruct ep.
  all: destruct (handle _ _ _ _) as [r w''] eqn:Hr in Hrun; injection Hrun as -> ->.
  all: run_in Hr; try done.
  split; [done |]. by eexists _, _, _, _.
Qed.

Lemma handlers_catch_exceptions_witness :
  let run := handle Scenario.env_login_fails GetAuthLogin Scenario.request_empty
               Scenario.world_fresh in
  run.1 = Raise Scenario.boom ∧
  ∃ scopes redirect_uri state prompt,
    last (new_events Scenario.world_fresh run.2)
    = Some (EvGetAuthorizationRequestUrl scopes redirect_uri state prompt
              (Raise Scenario.boom)).
Proof.
  intros run.
  assert (Hrun : handle Scenario.env_login_fails GetAuthLogin Scenario.request_empty
                   Scenario.world_fresh = (Raise Scenario.boom, run.2))
    by (vm_compute; reflexivity).
  split; [vm_compute; reflexivity |].
  exact (proj2 (handlers_catch_exceptions _ _ _ _ _ _ Hrun)).
Defined.

(** X7.  [/], [/auth/status], [/auth/tokens] and [/arcade/verify] leave the
    session as it was; [/], [/auth/status] and [/auth/logout] call nothing
    outside the process. *)
Theorem read_only_endpoints
    (env : Env) (ep : Endpoint) (request : Request) (w : World)
    (r : Result Response) (w' : World) :
  handle env ep request w = (r, w') →
  (reads_only ep = true → session w' = session w) ∧
  (calls_nothing ep = true → new_events w w' = []).
Proof.
  intros Hrun. destruct ep; run_in Hrun; split; intros Hep; simpl in Hep; try done.
  apply new_events_cleared.
Qed.

Lemma read_only_endpoints_witness :
  let run := handle Scenario.env_ok GetAuthTokens Scenario.request_empty
               Scenario.world_logged_in in
  let out := handle Scenario.env_ok GetAuthLogout Scenario.request_empty
               Scenario.world_logged_in in
  session run.2 = session Scenario.world_logged_in ∧
  new_events Scenario.world_logged_in out.2 = [].
Proof.
  intros run out. split.
  - apply (read_only_endpoints Scenario.env_ok GetAuthTokens Scenario.request_empty
             Scenario.world_logged_in run.1 run.2 (surjective_pairing run)).
    reflexivity.
  - apply (read_only_endpoints Scenario.env_ok GetAuthLogout Scenario.request_empty
             Scenario.world_logged_in out.1 out.2 (surjective_pairing out)).
    reflexivity.
Defined.

(** X8.  Each collaborator is reached from its own routes only: the nonce
    and the authorization URL from [/auth/login]; the token exchange, the
    id_token verification, the Token Cache Store write and the clock from
    [/auth/callback]; the cache lookup and the refresh from [/auth/tokens];
    the gateway and the console from [/arcade/verify]; the Cosmos container
    from [/auth/callback] and [/auth/tokens]. *)
Theorem events_belong_to_routes
    (env : Env) (ep : Endpoint) (request : Request) (w : World)
    (r : Result Response) (w' : World) (ev : Event) :
  handle env ep request w = (r, w') →
  ev ∈ new_events w w' →
  ep ∈ event_routes ev.
Proof.
  intros Hrun Hin. destruct ep; run_in Hrun; rewrite ?new_events_cleared in Hin;
    inv_elem Hin; simpl; pick_elem.
Qed.

Lemma events_belong_to_routes_witness :
  let run := handle Scenario.env_ok GetAuthCallback Scenario.request_code
               Scenario.world_pending in
  EvSaveTokenCacheToCosmos (PObj 1) "o1.t1" (Ok tt)
    ∈ new_events Scenario.world_pending run.2 ∧
  GetAuthCallback ∈ event_routes (EvSaveTokenCacheToCosmos (PObj 1) "o1.t1" (Ok tt)).
Proof.
  intros run.
  assert (Hin : EvSaveTokenCacheToCosmos (PObj 1) "o1.t1" (Ok tt)
                  ∈ new_events Scenario.world_pending run.2)
    by (vm_compute; repeat constructor).
  split; [exact Hin |].
  exact (events_belong_to_routes Scenario.env_ok GetAuthCallback Scenario.request_code
           Scenario.world_pending run.1 run.2 _ (surjective_pairing run) Hin).
Defined.

(** X9.  [GET /auth/logout] answers 200, empties the session and calls
    nothing; on the session it leaves, [/auth/tokens] answers 401,
    [/arcade/verify] answers 401 (400 for an empty flow_id) and
    [/auth/status] answers [authenticated: false], each without a call
    outside the process or a session write. *)
Theorem logout_revokes
    (env : Env) (request request' : Request) (flow_id : string) (w : World) :
  let w1 := (logout request w).2 in
  (logout request w).1 = Ok (EmptyResponse 200) ∧
  session w1 = ∅ ∧
  log w1 = log w ∧
  get_tokens env request' w1
  = (Ok (JSONResponse
           [("error", PStr "❌ Token Issuance Error: No valid session")] 401), w1) ∧
  (∃ resp, arcade_verify env request' flow_id w1 = (Ok resp, w1) ∧
           status_code resp = if String.eqb flow_id "" then 400 else 401) ∧
  auth_status request' w1
  = (Ok (JSONResponse [("authenticated", PBool false)] 200), w1).
Proof.
  unfold logout, get_tokens, arcade_verify, auth_status. unfold_monad. simpl.
  rewrite !lookup_empty. simpl.
  repeat split. destruct (String.eqb flow_id ""); by eexists.
Qed.

(** X10.  When the provider answers the code exchange without an
    [access_token] or without an [id_token], [GET /auth/callback] answers
    400 with the provider's [error_description] (or "Unknown error") after
    the fixed prefix; the exchange is the only call made, so nothing is
    verified or saved, and the session is left as it was. *)
Theorem callback_provider_rejects
    (env : Env) (request : Request) (w : World) (r : Result Response) (w' : World)
    (code : string) (scopes : list string) (redirect_uri : string)
    (result : gmap string string) :
  auth_callback env request w = (r, w') →
  EvAcquireTokenByAuthorizationCode code scopes redirect_uri (Ok result)
    ∈ new_events w w' →
  has_key result "access_token" && has_key result "id_token" = false →
  r = Ok (PlainResponse
            ("❌ Auth Callback Error: "
               +:+ default "Unknown error" (result !! "error_description")) 400) ∧
  new_events w w'
  = [EvAcquireTokenByAuthorizationCode code scopes redirect_uri (Ok result)] ∧
  session w' = session w.
Proof.
  intros Hrun Hin Hno. run_in Hrun; inv_elem Hin; try congruence. done.
Qed.

Lemma callback_provider_rejects_witness :
  let run := auth_callback Scenario.env_provider_rejects Scenario.request_code
               Scenario.world_pending in
  run.1 = Ok (PlainResponse
                ("❌ Auth Callback Error: "
                   +:+ default "Unknown error"
                         (Scenario.rejection !! "error_description")) 400) ∧
  new_events Scenario.world_pending run.2
  = [ EvAcquireTokenByAuthorizationCode "c0de" []
        "http://localhost:8000/auth/callback" (Ok Scenario.rejection) ] ∧
  session run.2 = session Scenario.world_pending.
Proof.
  intros run.
  apply (callback_provider_rejects Scenario.env_provider_rejects
           Scenario.request_code Scenario.world_pending run.1 run.2
           "c0de" [] "http://localhost:8000/auth/callback" Scenario.rejection
           (surjective_pairing run)).
  - vm_compute. repeat constructor.
  - reflexivity.
Defined.

(** X11.  [GET /auth/callback] never raises and answers 200 or 400.  A 200
    has no body and leaves a session with a truthy [user_id] and the
    [auth_time], [user_email] and [user_name] keys set; a 400 leaves the
    session as it was, and any Token Cache Store write of that run is one
    that raised. *)
Theorem callback_outcomes
    (env : Env) (request : Request) (w : World) (r : Result Response) (w' : World) :
  auth_callback env request w = (r, w') →
  ∃ resp, r = Ok resp ∧
    ((status_code resp = 200 ∧ body resp = NoBody ∧
      opt_truthy (session w' !! "user_id") = true ∧
      Forall (λ k, is_Some (session w' !! k))
        [ "user_id"; "auth_time"; "user_email"; "user_name" ])
     ∨
     (status_code resp = 400 ∧ session w' = session w ∧
      ∀ container user_key out,
        EvSaveTokenCacheToCosmos container user_key out ∈ new_events w w' →
        ∃ e, out = Raise e)).
Proof.
  intros Hrun. run_in Hrun; eexists; (split; [reflexivity |]).
  all: try (right; split; [done |]; split; [done |];
            intros c k out Hin; inv_elem Hin; by eexists).
  left. split; [done |]. split; [done |]. split.
  - rewrite !lookup_insert_ne by done. rewrite lookup_insert_eq. simpl.
    bool_hyps.
    match goal with
    | Ho : str_truthy (?c !! "oid") = true |- _ =>
        destruct (c !! "oid") as [oid|]; simpl in *; [|done]
    end.
    by destruct oid.
  - repeat constructor.
    all: rewrite ?lookup_insert_ne by done; rewrite lookup_insert_eq; by eexists.
Qed.

Lemma callback_outcomes_witness :
  let run := auth_callback Scenario.env_ok Scenario.request_code Scenario.world_pending in
  run.1 = Ok (EmptyResponse 200) ∧
  ∃ resp, run.1 = Ok resp ∧
    ((status_code resp = 200 ∧ body resp = NoBody ∧
      opt_truthy (session run.2 !! "user_id") = true ∧
      Forall (λ k, is_Some (session run.2 !! k))
        [ "user_id"; "auth_time"; "user_email"; "user_name" ])
     ∨
     (status_code resp = 400 ∧ session run.2 = session Scenario.world_pending ∧
      ∀ container user_key out,
        EvSaveTokenCacheToCosmos container user_key out
          ∈ new_events Scenario.world_pending run.2 →
        ∃ e, out = Raise e)).
Proof.
  intros run. split; [vm_compute; reflexivity |].
  exact (callback_outcomes Scenario.env_ok Scenario.request_code
           Scenario.world_pending run.1 run.2 (surjective_pairing run)).
Defined.



(** X12.  After a successful identity exchange, [GET /auth/tokens] on the
    session it left passes the login check and looks the Token Cache Store
    up under the very key the exchange saved the cache under. *)
Theorem callback_then_tokens
    (env : Env) (request request' : Request) (w w1 : World)
    (id_claims : gmap string string) (user_key : string)
    (r : Result Response) (w2 : World) :
  successful_exchange env request w w1 id_claims →
  stored_user_key w w1 user_key →
  get_tokens env request' w1 = (r, w2) →
  (∃ out rest, new_events w1 w2 = EvGetCosmosContainer out :: rest) ∧
  (∀ user_id container out,
     EvExtractInfoFromCache user_id container out ∈ new_events w1 w2 →
     user_id = PStr user_key).
Proof.
  intros Hex [Hkey _] Hrun.
  destruct (exchange_user_key _ _ _ _ _ Hex)
    as (oid & tid & _ & _ & Hoid & _ & [Hkey' _]).
  rewrite Hkey in Hkey'. injection Hkey' as ->.
  assert (Htruthy : opt_truthy (session w1 !! "user_id") = true).
  { rewrite Hkey. simpl. by destruct oid. }
  unfold get_tokens in Hrun. unfold_monad. simpl in Hrun.
  rewrite Htruthy, Hkey in Hrun. simpl in Hrun.
  repeat run_step Hrun.
  all: rewrite <- ?app_assoc; simpl; rewrite new_events_same_session.
  all: split; [by eexists _, _ |].
  all: intros u c o Hin; by inv_elem Hin.
Qed.

Lemma callback_then_tokens_witness :
  let w1 := (auth_callback Scenario.env_ok Scenario.request_code
               Scenario.world_pending).2 in
  let run := get_tokens Scenario.env_ok Scenario.request_empty w1 in
  stored_user_key Scenario.world_pending w1 "o1.t1" ∧
  (∃ out rest, new_events w1 run.2 = EvGetCosmosContainer out :: rest) ∧
  (∀ user_id container out,
     EvExtractInfoFromCache user_id container out ∈ new_events w1 run.2 →
     user_id = PStr "o1.t1").
Proof.
  intros w1 run.
  assert (Hex : successful_exchange Scenario.env_ok Scenario.request_code
                  Scenario.world_pending w1 Scenario.claims).
  { exists (EmptyResponse 200), "idt-1".
    split; [vm_compute; reflexivity |].
    split; [reflexivity |]. vm_compute. repeat constructor. }
  assert (Hkey : stored_user_key Scenario.world_pending w1 "o1.t1").
  { split; [vm_compute; reflexivity |]. exists (PObj 1). vm_compute. reflexivity. }
  split; [exact Hkey |].
  exact (callback_then_tokens Scenario.env_ok Scenario.request_code
           Scenario.request_empty Scenario.world_pending w1 Scenario.claims "o1.t1"
           run.1 run.2 Hex Hkey (surjective_pairing run)).
Defined.

(** X13.  After a successful identity exchange, [GET /arcade/verify] with a
    flow_id on the session it left passes the login check, and the user it
    confirms to the gateway is the key derived from the verified claims,
    for the flow_id of the request. *)
Theorem callback_then_verify
    (env : Env) (request request' : Request) (flow_id : string) (w w1 : World)
    (id_claims : gmap string string) (user_key : string)
    (r : Result Response) (w2 : World) :
  successful_exchange env request w w1 id_claims →
  stored_user_key w w1 user_key →
  flow_id ≠ "" →
  arcade_verify env request' flow_id w1 = (r, w2) →
  (∃ out rest, new_events w1 w2 = EvAsyncArcade out :: rest) ∧
  (∀ flow user out,
     EvConfirmUser flow user out ∈ new_events w1 w2 →
     flow = flow_id ∧ user = PStr user_key).
Proof.
  intros Hex [Hkey _] Hflow Hrun.
  destruct (exchange_user_key _ _ _ _ _ Hex)
    as (oid & tid & _ & _ & Hoid & _ & [Hkey' _]).
  rewrite Hkey in Hkey'. injection Hkey' as ->.
  assert (Htruthy : opt_truthy (session w1 !! "user_id") = true).
  { rewrite Hkey. simpl. by destruct oid. }
  apply String.eqb_neq in Hflow.
  unfold arcade_verify in Hrun. rewrite Hflow in Hrun. unfold_monad. simpl in Hrun.
  rewrite Htruthy, Hkey in Hrun. simpl in Hrun.
  repeat run_step Hrun.
  all: rewrite <- ?app_assoc; simpl; rewrite new_events_same_session.
  all: split; [by eexists _, _ |].
  all: intros f u o Hin; by inv_elem Hin.
Qed.

Lemma callback_then_verify_witness :
  let w1 := (auth_callback Scenario.env_ok Scenario.request_code
               Scenario.world_pending).2 in
  let run := arcade_verify Scenario.env_ok Scenario.request_empty "flow-1" w1 in
  EvConfirmUser "flow-1" (PStr "o1.t1") (Ok Scenario.confirmed_next)
    ∈ new_events w1 run.2 ∧
  (∃ out rest, new_events w1 run.2 = EvAsyncArcade out :: rest) ∧
  (∀ flow user out,
     EvConfirmUser flow user out ∈ new_events w1 run.2 →
     flow = "flow-1" ∧ user = PStr "o1.t1").
Proof.
  intros w1 run.
  assert (Hex : successful_exchange Scenario.env_ok Scenario.request_code
                  Scenario.world_pending w1 Scenario.claims).
  { exists (EmptyResponse 200), "idt-1".
    split; [vm_compute; reflexivity |].
    split; [reflexivity |]. vm_compute. repeat constructor. }
  assert (Hkey : stored_user_key Scenario.world_pending w1 "o1.t1").
  { split; [vm_compute; reflexivity |]. exists (PObj 1). vm_compute. reflexivity. }
  split; [vm_compute; repeat constructor |].
  apply (callback_then_verify Scenario.env_ok Scenario.request_code
           Scenario.request_empty "flow-1" Scenario.world_pending w1 Scenario.claims
           "o1.t1" run.1 run.2 Hex Hkey).
  - discriminate.
  - apply surjective_pairing.
Defined.

(** X15.  When a gateway step of [GET /arcade/verify] raises (building the
    client, [confirm_user] or [wait_for_completion]), nothing before it had
    raised, the handler prints the error and makes no further call, and
    answers 400 with "Failed to verify user. " followed by the text of the
    exception; the session is left as it was. *)
Theorem arcade_verify_gateway_exception
    (env : Env) (request : Request) (flow_id : string) (w : World)
    (r : Result Response) (w' : World) (ev : Event) (e : Exc) :
  arcade_verify env request flow_id w = (r, w') →
  ev ∈ new_events w w' →
  outcome_exc ev = Some e →
  r = Ok (PlainResponse
            ("❌ Arcade Verify Error: Failed to verify user. " +:+ exc_str e) 400) ∧
  (∃ before,
     new_events w w'
     = before ++ [ev; EvPrint ("❌ Arcade Verify Error: " +:+ exc_str e)] ∧
     Forall (λ earlier, outcome_exc earlier = None) before) ∧
  session w' = session w.
Proof.
  intros Hrun Hin Hexc. run_in Hrun; inv_elem Hin; simpl in Hexc; simplify_eq.
  all: split; [done |]; split; [| done].
  all: first [ exists []; split; [reflexivity | constructor]
             | eexists [_]; split; [reflexivity | by repeat constructor]
             | eexists [_; _]; split; [reflexivity | by repeat constructor] ].
Qed.

Lemma arcade_verify_gateway_exception_witness :
  let run := arcade_verify Scenario.env_gateway_refuses Scenario.request_empty
               "flow-1" Scenario.world_logged_in in
  run.1 = Ok (PlainResponse
                ("❌ Arcade Verify Error: Failed to verify user. "
                   +:+ exc_str Scenario.boom) 400) ∧
  new_events Scenario.world_logged_in run.2
  = [ EvAsyncArcade (Ok (PObj 2));
      EvConfirmUser "flow-1" (PStr "o1.t1") (Raise Scenario.boom);
      EvPrint ("❌ Arcade Verify Error: " +:+ exc_str Scenario.boom) ].
Proof.
  intros run.
  destruct (arcade_verify_gateway_exception Scenario.env_gateway_refuses
              Scenario.request_empty "flow-1" Scenario.world_logged_in run.1 run.2
              (EvConfirmUser "flow-1" (PStr "o1.t1") (Raise Scenario.boom))
              Scenario.boom (surjective_pairing run)) as (Hr & _ & _).
  - vm_compute. repeat constructor.
  - reflexivity.
  - split; [exact Hr |]. vm_compute. reflexivity.
Defined.

(** X16.  In every run of [GET /arcade/verify] the session is left as it
    was; [confirm_user] is called only with the request's non-empty flow_id
    and the session's truthy [user_id], right after the client was built;
    and [wait_for_completion] is called only right after a [confirm_user]
    that returned, on the authorization it named, with no gateway call
    after it. *)
Theorem arcade_verify_call_order
    (env : Env) (request : Request) (flow_id : string) (w : World)
    (r : Result Response) (w' : World) :
  arcade_verify env request flow_id w = (r, w') →
  session w' = session w ∧
  (∀ flow user out,
     EvConfirmUser flow user out ∈ new_events w w' →
     flow = flow_id ∧ flow_id ≠ "" ∧
     session w !! "user_id" = Some user ∧ truthy user = true ∧
     ∃ client rest,
       new_events w w' = EvAsyncArcade (Ok client) :: EvConfirmUser flow user out :: rest)
  ∧
  (∀ awaited out,
     EvWaitForCompletion awaited out ∈ new_events w w' →
     ∃ client user result rest,
       awaited = auth_id result ∧
       new_events w w'
       = EvAsyncArcade (Ok client)
           :: EvConfirmUser flow_id user (Ok result)
           :: EvWaitForCompletion awaited out :: rest ∧
       gateway_calls rest = []).
Proof.
  intros Hrun. run_in Hrun.
  all: split; [done |]; split.
  all: try (intros ? ? ? Hin; inv_elem Hin).
  all: try (intros ? ? Hin; inv_elem Hin).
  all: bool_hyps.
  all: try (eexists _, _, _, _; split; [reflexivity |]; split; reflexivity).
  all: match goal with
       | H : (_ =? "")%string = false |- _ => apply String.eqb_neq in H
       end.
  all: match goal with
       | H : opt_truthy (?s !! "user_id") = true |- _ =>
           destruct (s !! "user_id") as [user|] eqn:Huser; simpl in *; [|done]
       end.
  all: repeat split; try done; by eexists _, _.
Qed.

Lemma arcade_verify_call_order_witness :
  let run := arcade_verify Scenario.env_ok Scenario.request_empty "flow-1"
               Scenario.world_logged_in in
  EvWaitForCompletion "auth-1" (Ok Scenario.completed)
    ∈ new_events Scenario.world_logged_in run.2 ∧
  session run.2 = session Scenario.world_logged_in ∧
  ∃ client user result rest,
    "auth-1" = auth_id result ∧
    new_events Scenario.world_logged_in run.2
    = EvAsyncArcade (Ok client)
        :: EvConfirmUser "flow-1" user (Ok result)
        :: EvWaitForCompletion "auth-1" (Ok Scenario.completed) :: rest ∧
    gateway_calls rest = [].
Proof.
  intros run.
  assert (Hin : EvWaitForCompletion "auth-1" (Ok Scenario.completed)
                  ∈ new_events Scenario.world_logged_in run.2)
    by (vm_compute; repeat constructor).
  destruct (arcade_verify_call_order Scenario.env_ok Scenario.request_empty "flow-1"
              Scenario.world_logged_in run.1 run.2 (surjective_pairing run))
    as (Hs & _ & Hwait).
  split; [exact Hin |]. split; [exact Hs |].
  exact (Hwait _ _ Hin).
Defined.

(** ** What an authenticated session stands on *)

Lemma handle_keeps_session_backed
    (env : Env) (ep : Endpoint) (request : Request) (w : World)
    (r : Result Response) (w' : World) :
  session_backed w → handle env ep request w = (r, w') → session_backed w'.
Proof.
  intros Hback Hrun. destruct ep; run_in Hrun.
  all: intros v; simpl; rewrite ?lookup_insert_ne by done.
  all: try (intros Hv; destruct (Hback v Hv) as (tok & cl & c & Hver & Ho & Ht & -> & Hsave);
            exists tok, cl, c; rewrite ?elem_of_app; by eauto 10).
  all: try by rewrite lookup_empty.
  rewrite lookup_insert_eq. intros [= <-]. bool_hyps.
  destruct a2. eexists _, _, _.
  split; [apply elem_of_app; right; pick_elem |].
  split; [eassumption |]. split; [eassumption |]. split; [reflexivity |].
  apply elem_of_app; right; pick_elem.
Qed.

(** X22.  In every world the application can reach, a [user_id] in the
    session is the key oid.tid of claims that an id_token verified to, with
    both parts non-empty, and the transcript holds a successful Token Cache
    Store write under that key: no route authenticates a session without a
    verified id_token and a saved cache. *)
Theorem session_user_is_verified (env : Env) (w : World) :
  reachable env w → session_backed w.
Proof.
  induction 1 as [| w ep request r w' _ IH Hrun | w _ _].
  - intros v. simpl. by rewrite lookup_empty.
  - exact (handle_keeps_session_backed _ _ _ _ _ _ IH Hrun).
  - intros v. simpl. by rewrite lookup_empty.
Qed.

Lemma session_user_is_verified_witness :
  let w1 := (handle Scenario.env_ok GetAuthCallback Scenario.request_code
               Scenario.world_fresh).2 in
  session w1 !! "user_id" = Some (PStr "o1.t1") ∧
  session_backed w1.
Proof.
  intros w1. split; [vm_compute; reflexivity |].
  apply (session_user_is_verified Scenario.env_ok).
  eapply reach_handle; [apply reach_fresh | apply surjective_pairing].
Defined.

Lemma auth_status_never_authenticated_witness :
  let w1 := (handle Scenario.env_ok GetAuthCallback Scenario.request_code
               Scenario.world_fresh).2 in
  opt_truthy (session w1 !! "user_id") = true ∧
  auth_status Scenario.request_empty w1
  = (Ok (JSONResponse [("authenticated", PBool false)] 200), w1).
Proof.
  intros w1. split; [vm_compute; reflexivity |].
  apply (auth_status_never_authenticated Scenario.env_ok).
  eapply reach_handle; [apply reach_fresh | apply surjective_pairing].
Defined.
